(** * xml-to-csv: the conversion controllers

    A shallow embedding of [api/controllers/ConverterController.js]
    ([cleanJson], [flattenJson], [xmlToJson], [jsonToCsv]) and of the
    combined XML-to-CSV controller ([convert]), with the properties of the
    tree cleaner, the path flattener, the path selector and the three
    request handlers. *)

From Stdlib Require Import List String Ascii Bool Arith NArith ZArith Lia.
From Stdlib Require Import Floats.SpecFloat.
Import ListNotations.
Local Open Scope string_scope.
Local Open Scope list_scope.

Set Implicit Arguments.

(** ** Values

    The values the handlers see: what [JSON.parse] and the XML parser
    build (null, booleans, numbers, strings, arrays, plain objects), and
    [VHost]: a built-in function of the runtime, which is not JSON data
    but is what a property read such as [acc["toString"]] yields.

    A number is an IEEE-754 double ([spec_float]); a string is its
    sequence of code units; an object is the list of its own enumerable
    entries in the order [Object.entries] lists them. *)

Definition number := spec_float.

Unset Elimination Schemes.
Inductive value : Type :=
| VNull
| VBool (b : bool)
| VNum (n : number)
| VStr (s : string)
| VArr (elems : list value)
| VObj (entries : list (string * value))
| VHost (name : string).
Set Elimination Schemes.

Definition object := list (string * value).

(** The double nearest to an integer (binary64: 53 bits, emax 1024). *)
Definition num (z : Z) : number := binary_normalize 53 1024 z 0 false.

Section ValueInduction.
Variable P : value -> Prop.
Hypothesis Hnull : P VNull.
Hypothesis Hbool : forall b, P (VBool b).
Hypothesis Hnum : forall n, P (VNum n).
Hypothesis Hstr : forall s, P (VStr s).
Hypothesis Harr : forall l, Forall P l -> P (VArr l).
Hypothesis Hobj : forall m, Forall (fun kv => P (snd kv)) m -> P (VObj m).
Hypothesis Hhost : forall h, P (VHost h).

Fixpoint value_ind (v : value) : P v :=
  match v with
  | VNull => Hnull
  | VBool b => Hbool b
  | VNum n => Hnum n
  | VStr s => Hstr s
  | VArr l =>
      Harr (list_ind (Forall P) (Forall_nil P)
              (fun x _ IH => Forall_cons x (value_ind x) IH) l)
  | VObj m =>
      Hobj (list_ind (Forall (fun kv => P (snd kv))) (Forall_nil _)
              (fun kv _ IH => Forall_cons kv (value_ind (snd kv)) IH) m)
  | VHost h => Hhost h
  end.
End ValueInduction.

(** ** JavaScript primitives used by the controllers *)

(** [ToBoolean]: [null], [false], [+0], [-0], [NaN] and the empty string
    are falsy; every array, object and function is truthy. *)
Definition truthy (v : value) : bool :=
  match v with
  | VNull => false
  | VBool b => b
  | VNum (S754_zero _) => false
  | VNum S754_nan => false
  | VNum _ => true
  | VStr s => negb (s =? "")
  | VArr _ => true
  | VObj _ => true
  | VHost _ => true
  end.

(** [Array.isArray]. *)
Definition isArray (v : value) : bool :=
  match v with VArr _ => true | _ => false end.

(** [typeof v === "object" && !Array.isArray(v) && v !== null]. *)
Definition isPlainObject (v : value) : bool :=
  match v with VObj _ => true | _ => false end.

(** *** Property keys

    A key is an _array index_ when it is the decimal numeral of an
    integer below [2^32 - 1], as [ToString] prints it; an object lists
    such keys first, in ascending numeric order, and the other keys after
    them in the order of their creation. *)

Definition digit_of (c : ascii) : option N :=
  let n := N_of_ascii c in
  if ((48 <=? n) && (n <=? 57))%N then Some (n - 48)%N else None.

Fixpoint digits_value (s : string) (acc : N) : option N :=
  match s with
  | EmptyString => Some acc
  | String c s' =>
      match digit_of c with
      | Some d => digits_value s' (10 * acc + d)%N
      | None => None
      end
  end.

Fixpoint digits_of (fuel : nat) (n : N) (acc : string) : string :=
  match fuel with
  | O => acc
  | S fuel' =>
      let acc' := String (ascii_of_N (48 + n mod 10)) acc in
      if (n <? 10)%N then acc' else digits_of fuel' (n / 10) acc'
  end.

(** [ToString] of a non-negative integer: its decimal numeral (a number
    has no more decimal digits than binary ones). *)
Definition numeral (n : N) : string :=
  digits_of (S (N.to_nat (N.size n))) n "".

Definition array_index (key : string) : option N :=
  match digits_value key 0 with
  | Some n =>
      if ((n <? 2 ^ 32 - 1)%N && (numeral n =? key))%bool then Some n
      else None
  | None => None
  end.

(** The key of a position, as [Object.entries] of an array or of a
    string names it. *)
Definition index_key (i : nat) : string := numeral (N.of_nat i).

(** *** Own properties of a plain object *)

Definition keys (o : object) : list string := map fst o.

Fixpoint lookup (key : string) (o : object) : option value :=
  match o with
  | [] => None
  | (k, v) :: o' => if k =? key then Some v else lookup key o'
  end.

Definition has_key (key : string) (o : object) : bool :=
  existsb (fun kv => fst kv =? key) o.

Fixpoint replace (key : string) (v : value) (o : object) : object :=
  match o with
  | [] => []
  | (k, x) :: o' =>
      if k =? key then (k, v) :: o' else (k, x) :: replace key v o'
  end.

(** A new array-index key goes after the smaller indices and before
    everything else. *)
Fixpoint insert_index (n : N) (key : string) (v : value) (o : object)
  : object :=
  match o with
  | [] => [(key, v)]
  | (k, x) :: o' =>
      match array_index k with
      | Some m =>
          if (m <? n)%N then (k, x) :: insert_index n key v o'
          else (key, v) :: o
      | None => (key, v) :: o
      end
  end.

(** The write of an own property: an entry that is there is overwritten
    where it stands, a new one takes its place in the order of the
    keys. *)
Definition put (key : string) (v : value) (o : object) : object :=
  if has_key key o then replace key v o
  else
    match array_index key with
    | Some n => insert_index n key v o
    | None => o ++ [(key, v)]
    end.

(** An object made by the literal [{}] and filled by assignments: its own
    entries, and whether its prototype has been set to [null]. *)
Record literal : Type := {
  bare : bool;
  own : object
}.

(** [{}] *)
Definition fresh : literal := {| bare := false; own := [] |}.

Definition is_null (v : value) : bool :=
  match v with VNull => true | _ => false end.

(** [o[key] = v].

    An own property is overwritten. Otherwise the assignment walks the
    prototype chain, which ends in [Object.prototype] unless it has been
    cut: [Object.prototype] has the accessor [__proto__], whose setter
    makes [v] the prototype of [o] when [v] is an object or [null], does
    nothing when it is not, and creates no own property. Any other key,
    and [__proto__] too once the prototype is [null], becomes a new own
    property. *)
Definition assign (key : string) (v : value) (o : literal) : literal :=
  if negb (has_key key (own o)) && negb (bare o) && (key =? "__proto__")
  then {| bare := is_null v; own := own o |}
  else {| bare := bare o; own := put key v (own o) |}.

(** ** [cleanJson] *)

Fixpoint cleanJson (obj : value) : value :=
  match obj with
  | VArr elems =>
      match elems with
      | [x] => cleanJson x
      | _ => VArr (map cleanJson elems)
      end
  | VObj entries =>
      let cleaned :=
        fold_left
          (fun cleaned kv =>
             if fst kv =? "$" then cleaned
             else assign (fst kv) (cleanJson (snd kv)) cleaned)
          entries fresh in
      VObj (own cleaned)
  | _ => obj
  end.

(** ** [flattenJson] *)

Definition join_key (parentKey key : string) : string :=
  if parentKey =? "" then key else parentKey ++ "/" ++ key.

(** The body of the loop of [flattenJson] for one entry. *)
Fixpoint flatten_entry (parentKey : string) (key : string) (v : value)
  (result : literal) : literal :=
  let newKey := join_key parentKey key in
  match v with
  | VObj entries =>
      fold_left
        (fun result kv => flatten_entry newKey (fst kv) (snd kv) result)
        entries result
  | _ => assign newKey v result
  end.

(** [flattenJson(data, parentKey, result)] over the entries of [data];
    [result] is the one accumulator every recursive call writes to. *)
Definition flattenJson (data : object) (parentKey : string)
  (result : literal) : literal :=
  fold_left
    (fun result kv => flatten_entry parentKey (fst kv) (snd kv) result)
    data result.

(** ** Path selection

    [jsonPath.split(".").reduce((acc, key) =>
       (acc && acc[key] ? acc[key] : null), root)] *)

(** [String.prototype.split] on the separator ["."]: never empty. *)
Fixpoint split_dot (s : string) : list string :=
  match s with
  | EmptyString => [""]
  | String c s' =>
      if (c =? ".")%char then "" :: split_dot s'
      else
        match split_dot s' with
        | seg :: rest => String c seg :: rest
        | [] => [String c ""]
        end
  end.

(** The properties a value holds itself: the entries of an object and the
    elements of an array, addressed by their index. *)
Definition own_prop (v : value) (key : string) : option value :=
  match v with
  | VObj entries => lookup key entries
  | VArr elems =>
      match array_index key with
      | Some i => nth_error elems (N.to_nat i)
      | None => None
      end
  | _ => None
  end.

(** ** The runtime and the external collaborators

    What the controllers call and do not define: the [path] and [fs]
    modules, the XML parser, [JSON.parse] and [JSON.stringify], the CSV
    serializer, and the property reads of a value beyond [own_prop]
    ([length], the characters of a string, the prototype chain), where
    [None] is [undefined]. A call that throws returns [Throw] with the
    message of the error.

    [existsSync] holds the answers of the disk as they are when the
    handler runs. That a directory the run has just made changes a later
    answer, for a filename that names that very directory, is not
    modelled: the answer to a missing input file is stated for the runs
    that find their directories in place. *)

Inductive result (A : Type) : Type :=
| Ok (a : A)
| Throw (msg : string).
Arguments Ok {A} a.
Arguments Throw {A} msg.

Record runtime : Type := {
  dirname : string;
  join : list string -> string;
  basename : string -> string -> string;
  extname : string -> string;
  existsSync : string -> bool;
  mkdirSync : string -> result unit;
  readFileSync : string -> result string;
  writeFileSync : string -> string -> result unit;
  parseStringPromise : string -> result value;
  JSON_parse : string -> result value;
  JSON_stringify : value -> string;
  json2csv : list object -> result string;
  inherited : value -> string -> option value
}.

Section Select.
Variable rt : runtime.

(** [acc[key]]. *)
Definition get_prop (acc : value) (key : string) : option value :=
  match own_prop acc key with
  | Some x => Some x
  | None => inherited rt acc key
  end.

(** [(acc, key) => (acc && acc[key] ? acc[key] : null)]. *)
Definition select_step (acc : value) (key : string) : value :=
  if truthy acc then
    match get_prop acc key with
    | Some x => if truthy x then x else VNull
    | None => VNull
    end
  else VNull.

Definition select_reduce (root : value) (jsonPath : string) : value :=
  fold_left select_step (split_dot jsonPath) root.

(** The selector with its caller's test [!dataToConvert]: [None] is
    the absent result. *)
Definition select (root : value) (jsonPath : string) : option value :=
  let dataToConvert := select_reduce root jsonPath in
  if truthy dataToConvert then Some dataToConvert else None.
End Select.

(** ** Requests, responses and effects *)

Record request : Type := {
  filename : option string;
  jsonPath : option string
}.

Record body : Type := {
  message : string;
  jsonFilePath : option string;
  data : option value;
  csvFilePath : option string
}.

Inductive response : Type :=
| json (b : body)
| badRequest (error : string)
| notFound (error : string)
| serverError (error details : string).

Inductive event : Type :=
| EvMkdir (dir : string)
| EvRead (file : string)
| EvWrite (file content : string)
| EvLog (label msg : string).

(** A computation: the effects it attempted, in order, and its result or
    the exception that ended it. *)
Definition io (A : Type) : Type := (list event * result A)%type.

Definition ret {A} (a : A) : io A := ([], Ok a).

Definition bind {A B} (m : io A) (k : A -> io B) : io B :=
  match m with
  | (t, Ok a) => let (t', r) := k a in (t ++ t', r)
  | (t, Throw e) => (t, Throw e)
  end.

Definition try_catch {A} (m : io A) (handler : string -> io A) : io A :=
  match m with
  | (t, Ok a) => (t, Ok a)
  | (t, Throw e) => let (t', r) := handler e in (t ++ t', r)
  end.

Definition call {A} (ev : list event) (r : result A) : io A := (ev, r).

Declare Scope io_scope.
Delimit Scope io_scope with io.
Notation "x <- m ;; k" := (bind m (fun x => k))
  (at level 61, m at next level, right associativity) : io_scope.
Notation "m ;; k" := (bind m (fun _ => k))
  (at level 61, right associativity) : io_scope.
Local Open Scope io_scope.

(** [!x] for a string that may be [undefined]. *)
Definition falsy_string (x : option string) : bool :=
  match x with
  | None => true
  | Some s => s =? ""
  end.

(** A template literal renders [undefined] by its name. *)
Definition render (x : option string) : string :=
  match x with
  | None => "undefined"
  | Some s => s
  end.

(** [Object.entries]: the entries of an object, the indexed elements of
    an array, the indexed characters of a string, nothing for another
    primitive or a function; [null] has none to give. *)
Fixpoint indexed {A} (f : A -> value) (i : nat) (l : list A) : object :=
  match l with
  | [] => []
  | x :: l' => (index_key i, f x) :: indexed f (S i) l'
  end.

Definition entries_of (v : value) : result object :=
  match v with
  | VObj entries => Ok entries
  | VArr elems => Ok (indexed (fun x => x) 0 elems)
  | VStr s =>
      Ok (indexed (fun c => VStr (String c "")) 0 (list_ascii_of_string s))
  | VNull => Throw "Cannot convert undefined or null to object"
  | _ => Ok []
  end.

(** [dataToConvert.map((item) => flattenJson(item))]. *)
Fixpoint flatten_all (items : list value) : result (list object) :=
  match items with
  | [] => Ok []
  | item :: rest =>
      match entries_of item with
      | Throw e => Throw e
      | Ok entries =>
          match flatten_all rest with
          | Throw e => Throw e
          | Ok rows => Ok (own (flattenJson entries "" fresh) :: rows)
          end
      end
  end.

Section Handlers.
Variable rt : runtime.

Definition ensureDirectory (dirPath : string) : io unit :=
  if negb (existsSync rt dirPath)
  then call [EvMkdir dirPath] (mkdirSync rt dirPath)
  else ret tt.

Definition read (file : string) : io string :=
  call [EvRead file] (readFileSync rt file).

Definition write (file content : string) : io unit :=
  call [EvWrite file content] (writeFileSync rt file content).

Definition log (label msg : string) : io unit :=
  call [EvLog label msg] (Ok tt).

Definition pure {A} (r : result A) : io A := call [] r.

Definition not_an_array : string :=
  "The selected JSON data is not an array and cannot be converted to CSV.".

Definition no_such_path (p : option string) : string :=
  "The specified JSON path '" ++ render p ++ "' does not exist.".

(** The stage both CSV handlers share, from the test of
    [dataToConvert] to the write of the CSV file. [Ok None] stands for
    falling through to the code after it. *)
Definition to_csv_file (p : option string) (dataToConvert : value)
  (outputCsvPath : string) : io (option response) :=
  if negb (truthy dataToConvert) then
    ret (Some (badRequest (no_such_path p)))
  else
    match dataToConvert with
    | VArr items =>
        flattenedData <- pure (flatten_all items) ;;
        csv <- pure (json2csv rt flattenedData) ;;
        write outputCsvPath csv ;;
        ret None
    | _ => ret (Some (badRequest not_an_array))
    end.

(** POST /convert/xml-to-json *)
Definition xmlToJson (req : request) : io response :=
  if falsy_string (filename req) then
    ret (badRequest "Filename is required.")
  else
    let filename := render (filename req) in
    let xmlDir := join rt [dirname rt; "../../templates/xml"] in
    let jsonDir := join rt [dirname rt; "../../templates/json"] in
    let xmlFilePath := join rt [xmlDir; filename] in
    let outputJsonPath :=
      join rt [jsonDir;
               (basename rt filename (extname rt filename) ++ ".json")%string] in
    ensureDirectory xmlDir ;;
    ensureDirectory jsonDir ;;
    if negb (existsSync rt xmlFilePath) then
      ret (notFound "File not found in uploads directory.")
    else
      try_catch
        (xmlData <- read xmlFilePath ;;
         rawJson <- pure (parseStringPromise rt xmlData) ;;
         let cleanedJson := cleanJson rawJson in
         write outputJsonPath (JSON_stringify rt cleanedJson) ;;
         ret (json {| message :=
                        "XML successfully converted to JSON and saved.";
                      jsonFilePath := Some outputJsonPath;
                      data := Some cleanedJson;
                      csvFilePath := None |}))
        (fun error =>
           log "Error during XML to JSON conversion:" error ;;
           ret (serverError "Failed to convert XML to JSON." error)).

(** POST /convert/json-to-csv *)
Definition jsonToCsv (req : request) : io response :=
  if falsy_string (filename req) then
    ret (badRequest "Filename is required.")
  else
    let filename := render (filename req) in
    let jsonFilePath :=
      join rt [dirname rt; "../../templates/json"; filename] in
    let outputCsvPath :=
      join rt [dirname rt; "../../templates/csv";
               (basename rt filename (extname rt filename) ++ ".csv")%string] in
    if negb (existsSync rt jsonFilePath) then
      ret (notFound "JSON file not found in exports directory.")
    else
      try_catch
        (text <- read jsonFilePath ;;
         jsonData <- pure (JSON_parse rt text) ;;
         let dataToConvert :=
           if falsy_string (jsonPath req) then jsonData
           else select_reduce rt jsonData (render (jsonPath req)) in
         early <- to_csv_file (jsonPath req) dataToConvert outputCsvPath ;;
         match early with
         | Some res => ret res
         | None =>
             ret (json {| message :=
                            "JSON successfully converted to CSV and saved.";
                          jsonFilePath := None;
                          data := None;
                          csvFilePath := Some outputCsvPath |})
         end)
        (fun error =>
           log "Error during JSON to CSV conversion:" error ;;
           ret (serverError "Failed to convert JSON to CSV." error)).

(** POST /convert/xml-to-csv *)
Definition convert (req : request) : io response :=
  let jsonPath :=
    match jsonPath req with
    | None => "clearing.operation"
    | Some p => p
    end in
  if falsy_string (filename req) then
    ret (badRequest "Filename is required.")
  else
    let filename := render (filename req) in
    let uploadsDir := join rt [dirname rt; "../../uploads"] in
    let exportsDir := join rt [dirname rt; "../../exports"] in
    let xmlFilePath := join rt [uploadsDir; filename] in
    let outputCsvPath :=
      join rt [exportsDir;
               (basename rt filename (extname rt filename) ++ ".csv")%string] in
    ensureDirectory uploadsDir ;;
    ensureDirectory exportsDir ;;
    if negb (existsSync rt xmlFilePath) then
      ret (notFound "File not found in XML directory.")
    else
      try_catch
        (xmlData <- read xmlFilePath ;;
         rawJson <- pure (parseStringPromise rt xmlData) ;;
         let cleanedJson := cleanJson rawJson in
         let dataToConvert := select_reduce rt cleanedJson jsonPath in
         early <- to_csv_file (Some jsonPath) dataToConvert outputCsvPath ;;
         match early with
         | Some res => ret res
         | None =>
             ret (json {| message :=
                            "XML successfully converted to JSON and CSV.";
                          jsonFilePath := None;
                          data := Some cleanedJson;
                          csvFilePath := Some outputCsvPath |})
         end)
        (fun error =>
           log "Error during conversion:" error ;;
           ret (serverError "Failed to convert XML to JSON/CSV." error)).
End Handlers.

(** * Specification

    What the properties are stated with: the shape of the objects
    JavaScript builds, the cleaner, the flattener and the selector as the
    specification words them, and what a run of a handler wrote. *)

(** ** Objects as JavaScript builds them

    The entries of an object have distinct keys, the array indices first
    and ascending. [key_before k1 k2] holds when [k1] may stand before
    [k2] among the keys of one object. *)

Definition key_before (k1 k2 : string) : bool :=
  match array_index k1, array_index k2 with
  | Some a, Some b => (a <? b)%N
  | Some _, None => true
  | None, Some _ => false
  | None, None => negb (k1 =? k2)
  end.

Fixpoint wf_keys (ks : list string) : bool :=
  match ks with
  | [] => true
  | k :: rest => forallb (key_before k) rest && wf_keys rest
  end.

Fixpoint well_formed (v : value) : bool :=
  match v with
  | VArr elems => forallb well_formed elems
  | VObj entries =>
      wf_keys (keys entries)
      && forallb (fun kv => well_formed (snd kv)) entries
  | _ => true
  end.

(** Some object of the value, at any depth, has an entry at [key]. *)
Fixpoint has_key_deep (key : string) (v : value) : bool :=
  match v with
  | VArr elems => existsb (has_key_deep key) elems
  | VObj entries =>
      existsb (fun kv => (fst kv =? key) || has_key_deep key (snd kv))
              entries
  | _ => false
  end.

(** Some array of the value, at any depth, has exactly one element. *)
Fixpoint has_singleton (v : value) : bool :=
  match v with
  | VArr elems =>
      (Nat.eqb (List.length elems) 1) || existsb has_singleton elems
  | VObj entries => existsb (fun kv => has_singleton (snd kv)) entries
  | _ => false
  end.

(** The separator of flattened keys occurs in the string. *)
Definition has_slash (s : string) : bool :=
  existsb (Ascii.eqb "/") (list_ascii_of_string s).

(** The attribute marker of the XML parser. *)
Definition has_marker (v : value) : bool := has_key_deep "$" v.

Definition is_container (v : value) : bool :=
  match v with
  | VArr _ | VObj _ => true
  | _ => false
  end.

(** ** The cleaner, the flattener and the selector of the specification *)

(** The entries of a mapping without the attribute marker, each value
    transformed by [g]. *)
Fixpoint retain (g : value -> value) (entries : object) : object :=
  match entries with
  | [] => []
  | kv :: rest =>
      if fst kv =? "$" then retain g rest
      else (fst kv, g (snd kv)) :: retain g rest
  end.

(** The cleaner as the specification words it. *)
Fixpoint clean_spec (v : value) : value :=
  match v with
  | VArr elems =>
      match elems with
      | [x] => clean_spec x
      | _ => VArr (map clean_spec elems)
      end
  | VObj entries => VObj (retain clean_spec entries)
  | _ => v
  end.

(** The flattener as the specification words it. *)
Fixpoint flatten_entry_spec (prefix : string) (key : string) (val : value)
  (result : object) : object :=
  let newKey :=
    if prefix =? "" then key else (prefix ++ "/" ++ key)%string in
  match val with
  | VObj entries =>
      fold_left
        (fun result kv =>
           flatten_entry_spec newKey (fst kv) (snd kv) result)
        entries result
  | _ => put newKey val result
  end.

Definition flatten_spec (m : object) (prefix : string) : object :=
  fold_left
    (fun result kv => flatten_entry_spec prefix (fst kv) (snd kv) result)
    m [].

(** The body of the loop of [cleanJson] over the entries of an object. *)
Definition clean_step (g : value -> value) (cleaned : literal)
  (kv : string * value) : literal :=
  if fst kv =? "$" then cleaned else assign (fst kv) (g (snd kv)) cleaned.





(** ** The runs of the handlers *)

(** The files of a request, as the handlers compute them. *)
Section Paths.
Variable rt : runtime.

Definition stem (fname : string) : string :=
  basename rt fname (extname rt fname).

Definition templates_xml_dir := join rt [dirname rt; "../../templates/xml"].
Definition templates_json_dir :=
  join rt [dirname rt; "../../templates/json"].
Definition templates_xml_file fname := join rt [templates_xml_dir; fname].
Definition templates_json_output fname :=
  join rt [templates_json_dir; (stem fname ++ ".json")%string].
Definition templates_json_file fname :=
  join rt [dirname rt; "../../templates/json"; fname].
Definition templates_csv_output fname :=
  join rt [dirname rt; "../../templates/csv";
           (stem fname ++ ".csv")%string].
Definition uploads_dir := join rt [dirname rt; "../../uploads"].
Definition exports_dir := join rt [dirname rt; "../../exports"].
Definition uploads_file fname := join rt [uploads_dir; fname].
Definition exports_csv_output fname :=
  join rt [exports_dir; (stem fname ++ ".csv")%string].

(** [dataToConvert] of [jsonToCsv]. *)
Definition selected (p : option string) (jsonData : value) : value :=
  if falsy_string p then jsonData
  else select_reduce rt jsonData (render p).

(** The path [convert] selects by. *)
Definition path_or_default (p : option string) : string :=
  match p with
  | None => "clearing.operation"
  | Some p => p
  end.

(** The CSV text of a value to convert, when it is an array whose
    elements all flatten and whose rows the serializer accepts. *)
Definition csv_of (dataToConvert : value) : option string :=
  match dataToConvert with
  | VArr items =>
      match flatten_all items with
      | Ok rows =>
          match json2csv rt rows with
          | Ok csv => Some csv
          | Throw _ => None
          end
      | Throw _ => None
      end
  | _ => None
  end.
End Paths.

Arguments templates_xml_dir : simpl never.
Arguments templates_json_dir : simpl never.
Arguments templates_xml_file : simpl never.
Arguments templates_json_output : simpl never.
Arguments templates_json_file : simpl never.
Arguments templates_csv_output : simpl never.
Arguments uploads_dir : simpl never.
Arguments exports_dir : simpl never.
Arguments uploads_file : simpl never.
Arguments exports_csv_output : simpl never.
Arguments selected : simpl never.




(** The file and text a handler has to write, and its answer when the
    write succeeds, once every step before the write has succeeded:
    reading, parsing, cleaning, selecting, flattening, serializing. *)
Definition xmlToJson_steps (rt : runtime) (req : request)
  : option (string * string * response) :=
  match filename req with
  | Some fname =>
      match readFileSync rt (templates_xml_file rt fname) with
      | Ok xmlData =>
          match parseStringPromise rt xmlData with
          | Ok rawJson =>
              Some (templates_json_output rt fname,
                    JSON_stringify rt (cleanJson rawJson),
                    json {| message :=
                              "XML successfully converted to JSON and saved.";
                            jsonFilePath :=
                              Some (templates_json_output rt fname);
                            data := Some (cleanJson rawJson);
                            csvFilePath := None |})
          | Throw _ => None
          end
      | Throw _ => None
      end
  | None => None
  end.

Definition jsonToCsv_steps (rt : runtime) (req : request)
  : option (string * string * response) :=
  match filename req with
  | Some fname =>
      match readFileSync rt (templates_json_file rt fname) with
      | Ok text =>
          match JSON_parse rt text with
          | Ok jsonData =>
              match csv_of rt (selected rt (jsonPath req) jsonData) with
              | Some csv =>
                  Some (templates_csv_output rt fname, csv,
                        json {| message :=
                                  "JSON successfully converted to CSV and saved.";
                                jsonFilePath := None;
                                data := None;
                                csvFilePath :=
                                  Some (templates_csv_output rt fname) |})
              | None => None
              end
          | Throw _ => None
          end
      | Throw _ => None
      end
  | None => None
  end.

Definition convert_steps (rt : runtime) (req : request)
  : option (string * string * response) :=
  match filename req with
  | Some fname =>
      match readFileSync rt (uploads_file rt fname) with
      | Ok xmlData =>
          match parseStringPromise rt xmlData with
          | Ok rawJson =>
              match csv_of rt (select_reduce rt (cleanJson rawJson)
                                 (path_or_default (jsonPath req))) with
              | Some csv =>
                  Some (exports_csv_output rt fname, csv,
                        json {| message :=
                                  "XML successfully converted to JSON and CSV.";
                                jsonFilePath := None;
                                data := Some (cleanJson rawJson);
                                csvFilePath :=
                                  Some (exports_csv_output rt fname) |})
              | None => None
              end
          | Throw _ => None
          end
      | Throw _ => None
      end
  | None => None
  end.

Inductive handler : Type := XmlToJson | JsonToCsv | XmlToCsv.

Definition run (h : handler) : runtime -> request -> io response :=
  match h with
  | XmlToJson => xmlToJson
  | JsonToCsv => jsonToCsv
  | XmlToCsv => convert
  end.

Definition steps_of (h : handler)
  : runtime -> request -> option (string * string * response) :=
  match h with
  | XmlToJson => xmlToJson_steps
  | JsonToCsv => jsonToCsv_steps
  | XmlToCsv => convert_steps
  end.

Definition failure_of (h : handler) : string :=
  match h with
  | XmlToJson => "Failed to convert XML to JSON."
  | JsonToCsv => "Failed to convert JSON to CSV."
  | XmlToCsv => "Failed to convert XML to JSON/CSV."
  end.

(** ** Sample documents and a sample runtime *)

Definition one := num 1.
Definition two := num 2.
Definition three := num 3.

Definition doc_abc : value :=
  VObj [("a", VObj [("b", VObj [("c", VNum (num 42))])])].

Definition doc_proto : value :=
  VObj [("__proto__", VStr "x"); ("a", VStr "y")].

Definition doc_table : value :=
  VArr [VObj [("a", VNum one); ("b", VObj [("c", VNum two)])]].

Definition doc_clearing : value :=
  VObj [("clearing",
         VObj [("$", VObj [("xmlns", VStr "urn:clearing")]);
               ("operation",
                VArr [VObj [("id", VArr [VStr "1"]);
                            ("amount", VArr [VObj [("value", VArr [VStr "10"]);
                                                   ("currency", VArr [VStr "EUR"])]])];
                      VObj [("id", VArr [VStr "2"])]])])].

(** A runtime to run the handlers in: every file exists and holds the
    document [doc]; the disk takes a write or refuses it. *)
Definition has_suffix (e s : string) : bool :=
  substring (length s - length e) (length e) s =? e.

Definition sample_rt (doc : value) (disk_ok : bool) : runtime :=
  {| dirname := "/srv/api/controllers";
     join := String.concat "/";
     basename := fun f e =>
       if has_suffix e f then substring 0 (length f - length e) f else f;
     extname := fun f =>
       if has_suffix ".json" f then ".json"
       else if has_suffix ".xml" f then ".xml" else "";
     existsSync := fun _ => true;
     mkdirSync := fun _ => Ok tt;
     readFileSync := fun _ => Ok "<document>";
     writeFileSync := fun _ _ =>
       if disk_ok then Ok tt
       else Throw "ENOENT: no such file or directory";
     parseStringPromise := fun _ => Ok doc;
     JSON_parse := fun _ => Ok doc;
     JSON_stringify := fun _ => "<json>";
     json2csv := fun _ => Ok "<csv>";
     inherited := fun _ _ => None |}.

Definition doc_rows_table : value :=
  VObj [("rows", VArr [VObj [("a", VNum one);
                             ("b", VObj [("c", VNum two)])]])].

(** A runtime with each answer of the file system, the parsers and the
    serializer given. *)
Definition rt_with (found : string -> bool) (made : result unit)
  (text : result string) (parsed : result value) (csv : result string)
  (written : result unit) : runtime :=
  {| dirname := dirname (sample_rt VNull true);
     join := join (sample_rt VNull true);
     basename := basename (sample_rt VNull true);
     extname := extname (sample_rt VNull true);
     existsSync := found;
     mkdirSync := fun _ => made;
     readFileSync := fun _ => text;
     writeFileSync := fun _ _ => written;
     parseStringPromise := fun _ => parsed;
     JSON_parse := fun _ => parsed;
     JSON_stringify := fun _ => "<json>";
     json2csv := fun _ => csv;
     inherited := fun _ _ => None |}.


(** * Requests of any shape

    [req.body] is the object the framework made of what the client
    sent: under each name there may be nothing, or any JSON value. The
    handlers above are the handlers on the requests whose [filename]
    and [jsonPath], where they are given, are strings. Here are the same
    handlers on every body. What the source does with a value that is
    not a string: [!filename] and the test [jsonPath ? ... : ...] take
    its truthiness; [path.join] throws on it, before the [try];
    [jsonPath.split] throws on it, inside the [try]; a template renders it. *)

(** The messages of the errors the [path] module and the engine throw
    on a value of the wrong type, and the text of a value in a
    template. *)
Record engine : Type := {
  invalid_path : option value -> string;
  cannot_read : option value -> string;
  not_a_function : string;
  text_of : value -> string
}.

Module AnyBody.

Record request : Type := {
  filename : option value;
  jsonPath : option value
}.

(** [!x], where [None] is [undefined]. *)
Definition falsy (x : option value) : bool :=
  match x with
  | None => true
  | Some v => negb (truthy v)
  end.

Section Handlers.
Variable e : engine.
Variable rt : runtime.

(** A template literal. *)
Definition render (x : option value) : string :=
  match x with
  | None => "undefined"
  | Some VNull => "null"
  | Some (VBool true) => "true"
  | Some (VBool false) => "false"
  | Some (VStr s) => s
  | Some (VNum (S754_zero _)) => "0"
  | Some (VNum S754_nan) => "NaN"
  | Some v => text_of e v
  end.

(** An argument of [path.join], [path.basename] and [path.extname] has
    to be a string. *)
Definition path_argument (x : option value) : result string :=
  match x with
  | Some (VStr s) => Ok s
  | _ => Throw (invalid_path e x)
  end.

(** [x.split(".")]: the method of a string; [null] and [undefined] have
    no property to read, and no other JSON value has a function under
    [split]. *)
Definition split (x : option value) : result (list string) :=
  match x with
  | Some (VStr s) => Ok (split_dot s)
  | Some VNull | None => Throw (cannot_read e x)
  | Some _ => Throw (not_a_function e)
  end.

(** [x.split(".").reduce((acc, key) => ..., root)] *)
Definition reduce (x : option value) (root : value) : result value :=
  match split x with
  | Ok segments => Ok (fold_left (select_step rt) segments root)
  | Throw error => Throw error
  end.

(** POST /convert/xml-to-json *)
Definition xmlToJson (req : request) : io response :=
  if falsy (filename req) then
    ret (badRequest "Filename is required.")
  else
    let xmlDir := join rt [dirname rt; "../../templates/xml"] in
    let jsonDir := join rt [dirname rt; "../../templates/json"] in
    filename <- pure (path_argument (filename req)) ;;
    let xmlFilePath := join rt [xmlDir; filename] in
    let outputJsonPath :=
      join rt [jsonDir;
               (basename rt filename (extname rt filename) ++ ".json")%string] in
    ensureDirectory rt xmlDir ;;
    ensureDirectory rt jsonDir ;;
    if negb (existsSync rt xmlFilePath) then
      ret (notFound "File not found in uploads directory.")
    else
      try_catch
        (xmlData <- read rt xmlFilePath ;;
         rawJson <- pure (parseStringPromise rt xmlData) ;;
         let cleanedJson := cleanJson rawJson in
         write rt outputJsonPath (JSON_stringify rt cleanedJson) ;;
         ret (json {| message :=
                        "XML successfully converted to JSON and saved.";
                      jsonFilePath := Some outputJsonPath;
                      data := Some cleanedJson;
                      csvFilePath := None |}))
        (fun error =>
           log "Error during XML to JSON conversion:" error ;;
           ret (serverError "Failed to convert XML to JSON." error)).

(** POST /convert/json-to-csv *)
Definition jsonToCsv (req : request) : io response :=
  if falsy (filename req) then
    ret (badRequest "Filename is required.")
  else
    filename <- pure (path_argument (filename req)) ;;
    let jsonFilePath :=
      join rt [dirname rt; "../../templates/json"; filename] in
    let outputCsvPath :=
      join rt [dirname rt; "../../templates/csv";
               (basename rt filename (extname rt filename) ++ ".csv")%string] in
    if negb (existsSync rt jsonFilePath) then
      ret (notFound "JSON file not found in exports directory.")
    else
      try_catch
        (text <- read rt jsonFilePath ;;
         jsonData <- pure (JSON_parse rt text) ;;
         dataToConvert <-
           pure (if falsy (jsonPath req) then Ok jsonData
                 else reduce (jsonPath req) jsonData) ;;
         early <- to_csv_file rt (Some (render (jsonPath req)))
                    dataToConvert outputCsvPath ;;
         match early with
         | Some res => ret res
         | None =>
             ret (json {| message :=
                            "JSON successfully converted to CSV and saved.";
                          jsonFilePath := None;
                          data := None;
                          csvFilePath := Some outputCsvPath |})
         end)
        (fun error =>
           log "Error during JSON to CSV conversion:" error ;;
           ret (serverError "Failed to convert JSON to CSV." error)).

(** POST /convert/xml-to-csv *)
Definition convert (req : request) : io response :=
  let jsonPath :=
    match jsonPath req with
    | None => Some (VStr "clearing.operation")
    | Some p => Some p
    end in
  if falsy (filename req) then
    ret (badRequest "Filename is required.")
  else
    let uploadsDir := join rt [dirname rt; "../../uploads"] in
    let exportsDir := join rt [dirname rt; "../../exports"] in
    filename <- pure (path_argument (filename req)) ;;
    let xmlFilePath := join rt [uploadsDir; filename] in
    let outputCsvPath :=
      join rt [exportsDir;
               (basename rt filename (extname rt filename) ++ ".csv")%string] in
    ensureDirectory rt uploadsDir ;;
    ensureDirectory rt exportsDir ;;
    if negb (existsSync rt xmlFilePath) then
      ret (notFound "File not found in XML directory.")
    else
      try_catch
        (xmlData <- read rt xmlFilePath ;;
         rawJson <- pure (parseStringPromise rt xmlData) ;;
         let cleanedJson := cleanJson rawJson in
         dataToConvert <- pure (reduce jsonPath cleanedJson) ;;
         early <- to_csv_file rt (Some (render jsonPath))
                    dataToConvert outputCsvPath ;;
         match early with
         | Some res => ret res
         | None =>
             ret (json {| message :=
                            "XML successfully converted to JSON and CSV.";
                          jsonFilePath := None;
                          data := Some cleanedJson;
                          csvFilePath := Some outputCsvPath |})
         end)
        (fun error =>
           log "Error during conversion:" error ;;
           ret (serverError "Failed to convert XML to JSON/CSV." error)).

Definition run (h : handler) : request -> io response :=
  match h with
  | XmlToJson => xmlToJson
  | JsonToCsv => jsonToCsv
  | XmlToCsv => convert
  end.

(** The value the CSV handlers have to convert, or the error of the
    selection. *)
Definition to_convert (h : handler) (p : option value) (doc : value)
  : result value :=
  match h with
  | XmlToJson => Ok (cleanJson doc)
  | JsonToCsv => if falsy p then Ok doc else reduce p doc
  | XmlToCsv =>
      reduce (match p with
              | None => Some (VStr "clearing.operation")
              | Some p => Some p
              end) (cleanJson doc)
  end.

End Handlers.

End AnyBody.

(** A request whose fields are strings, as a body. *)
Definition as_body (req : request) : AnyBody.request :=
  {| AnyBody.filename := option_map VStr (filename req);
     AnyBody.jsonPath := option_map VStr (jsonPath req) |}.

(** The runtime of [rt] whose parsers throw [error] where those of [rt]
    return a document: with it a request runs as one on [rt] whose
    [jsonPath] cannot be split, the next step after the parser. *)
Definition failing_parsers (error : string) (rt : runtime) : runtime :=
  {| dirname := dirname rt;
     join := join rt;
     basename := basename rt;
     extname := extname rt;
     existsSync := existsSync rt;
     mkdirSync := mkdirSync rt;
     readFileSync := readFileSync rt;
     writeFileSync := writeFileSync rt;
     parseStringPromise := fun text =>
       match parseStringPromise rt text with
       | Ok _ => Throw error
       | Throw msg => Throw msg
       end;
     JSON_parse := fun text =>
       match JSON_parse rt text with
       | Ok _ => Throw error
       | Throw msg => Throw msg
       end;
     JSON_stringify := JSON_stringify rt;
     json2csv := json2csv rt;
     inherited := inherited rt |}.

(** The answer of a request with no [jsonPath], with [shown] for the
    path its message cites. *)
Definition reword (shown : string) (r : result response)
  : result response :=
  match r with
  | Ok (badRequest error) =>
      if error =? no_such_path None
      then Ok (badRequest (no_such_path (Some shown)))
      else r
  | _ => r
  end.

(** The files a run read, in order. *)
Fixpoint reads (t : list event) : list string :=
  match t with
  | [] => []
  | EvRead file :: t' => file :: reads t'
  | _ :: t' => reads t'
  end.

(** A sample engine: the error codes stand for the messages. *)
Definition sample_engine : engine :=
  {| invalid_path := fun _ => "ERR_INVALID_ARG_TYPE";
     cannot_read := fun _ => "TypeError: cannot read properties";
     not_a_function := "TypeError: jsonPath.split is not a function";
     text_of := fun _ => "[object Object]" |}.

(** ** More to state properties with *)

(** The leaves of an entry, each with the key that joins the keys on the
    way to it: what is not a plain object is a leaf, in the order the
    flattener meets them. *)
Fixpoint leaf_paths (parentKey key : string) (v : value)
  : list (string * value) :=
  match v with
  | VObj entries =>
      flat_map
        (fun kv => leaf_paths (join_key parentKey key) (fst kv) (snd kv))
        entries
  | _ => [(join_key parentKey key, v)]
  end.

Definition leaf_paths_of (data : object) (parentKey : string)
  : list (string * value) :=
  flat_map (fun kv => leaf_paths parentKey (fst kv) (snd kv)) data.

(** The row [flattenJson(item)] makes of an element that is not
    [null]. *)
Definition row_of (item : value) : object :=
  match entries_of item with
  | Ok entries => own (flattenJson entries "" fresh)
  | Throw _ => []
  end.

Definition has_dot (s : string) : bool :=
  existsb (Ascii.eqb ".") (list_ascii_of_string s).

(** The selector after another: absent stays absent. *)
Definition and_then (first : option value) (next : value -> option value)
  : option value :=
  match first with
  | Some v => next v
  | None => None
  end.

(** *** The stages of a run

    What differs from one handler to the other: the directories it
    makes sure of, the file it reads, its messages, its parser, and the
    value it converts. *)

Definition dirs_of (h : handler) (rt : runtime) : list string :=
  match h with
  | XmlToJson => [templates_xml_dir rt; templates_json_dir rt]
  | JsonToCsv => []
  | XmlToCsv => [uploads_dir rt; exports_dir rt]
  end.

Fixpoint ensure_dirs (rt : runtime) (dirs : list string) : io unit :=
  match dirs with
  | [] => ret tt
  | dir :: rest => bind (ensureDirectory rt dir) (fun _ => ensure_dirs rt rest)
  end.

Definition input_of (h : handler) (rt : runtime) (fname : string)
  : string :=
  match h with
  | XmlToJson => templates_xml_file rt fname
  | JsonToCsv => templates_json_file rt fname
  | XmlToCsv => uploads_file rt fname
  end.


Definition missing_of (h : handler) : string :=
  match h with
  | XmlToJson => "File not found in uploads directory."
  | JsonToCsv => "JSON file not found in exports directory."
  | XmlToCsv => "File not found in XML directory."
  end.

Definition label_of (h : handler) : string :=
  match h with
  | XmlToJson => "Error during XML to JSON conversion:"
  | JsonToCsv => "Error during JSON to CSV conversion:"
  | XmlToCsv => "Error during conversion:"
  end.

Definition parse_of (h : handler) (rt : runtime)
  : string -> result value :=
  match h with
  | JsonToCsv => JSON_parse rt
  | _ => parseStringPromise rt
  end.

(** [dataToConvert] of the CSV handlers. *)
Definition to_convert (h : handler) (rt : runtime) (p : option string)
  (doc : value) : value :=
  match h with
  | XmlToJson => cleanJson doc
  | JsonToCsv => selected rt p doc
  | XmlToCsv => select_reduce rt (cleanJson doc) (path_or_default p)
  end.

(** The path the message of a missing path cites. *)
Definition path_shown (h : handler) (p : option string) : option string :=
  match h with
  | XmlToCsv => Some (path_or_default p)
  | _ => p
  end.

Definition makes_csv (h : handler) : bool :=
  match h with
  | XmlToJson => false
  | _ => true
  end.

(** The runs of a handler, stage by stage: where a run ends, what it
    did until then and what it answers. [t0] is what making sure of the
    directories did. *)
Inductive outcome (h : handler) (rt : runtime) (req : request)
  : list event -> result response -> Prop :=
| out_no_filename :
    falsy_string (filename req) = true ->
    outcome h rt req [] (Ok (badRequest "Filename is required."))
| out_mkdir_failed fname t0 msg :
    filename req = Some fname -> fname <> "" ->
    ensure_dirs rt (dirs_of h rt) = (t0, Throw msg) ->
    outcome h rt req t0 (Throw msg)
| out_not_found fname t0 :
    filename req = Some fname -> fname <> "" ->
    ensure_dirs rt (dirs_of h rt) = (t0, Ok tt) ->
    existsSync rt (input_of h rt fname) = false ->
    outcome h rt req t0 (Ok (notFound (missing_of h)))
| out_read_failed fname t0 msg :
    filename req = Some fname -> fname <> "" ->
    ensure_dirs rt (dirs_of h rt) = (t0, Ok tt) ->
    existsSync rt (input_of h rt fname) = true ->
    readFileSync rt (input_of h rt fname) = Throw msg ->
    outcome h rt req
      (t0 ++ [EvRead (input_of h rt fname); EvLog (label_of h) msg])
      (Ok (serverError (failure_of h) msg))
| out_parse_failed fname t0 text msg :
    filename req = Some fname -> fname <> "" ->
    ensure_dirs rt (dirs_of h rt) = (t0, Ok tt) ->
    existsSync rt (input_of h rt fname) = true ->
    readFileSync rt (input_of h rt fname) = Ok text ->
    parse_of h rt text = Throw msg ->
    outcome h rt req
      (t0 ++ [EvRead (input_of h rt fname); EvLog (label_of h) msg])
      (Ok (serverError (failure_of h) msg))
| out_absent fname t0 text doc :
    filename req = Some fname -> fname <> "" ->
    ensure_dirs rt (dirs_of h rt) = (t0, Ok tt) ->
    existsSync rt (input_of h rt fname) = true ->
    readFileSync rt (input_of h rt fname) = Ok text ->
    parse_of h rt text = Ok doc ->
    makes_csv h = true ->
    truthy (to_convert h rt (jsonPath req) doc) = false ->
    outcome h rt req
      (t0 ++ [EvRead (input_of h rt fname)])
      (Ok (badRequest (no_such_path (path_shown h (jsonPath req)))))
| out_not_array fname t0 text doc :
    filename req = Some fname -> fname <> "" ->
    ensure_dirs rt (dirs_of h rt) = (t0, Ok tt) ->
    existsSync rt (input_of h rt fname) = true ->
    readFileSync rt (input_of h rt fname) = Ok text ->
    parse_of h rt text = Ok doc ->
    makes_csv h = true ->
    truthy (to_convert h rt (jsonPath req) doc) = true ->
    isArray (to_convert h rt (jsonPath req) doc) = false ->
    outcome h rt req
      (t0 ++ [EvRead (input_of h rt fname)])
      (Ok (badRequest not_an_array))
| out_flatten_failed fname t0 text doc items msg :
    filename req = Some fname -> fname <> "" ->
    ensure_dirs rt (dirs_of h rt) = (t0, Ok tt) ->
    existsSync rt (input_of h rt fname) = true ->
    readFileSync rt (input_of h rt fname) = Ok text ->
    parse_of h rt text = Ok doc ->
    makes_csv h = true ->
    to_convert h rt (jsonPath req) doc = VArr items ->
    flatten_all items = Throw msg ->
    outcome h rt req
      (t0 ++ [EvRead (input_of h rt fname); EvLog (label_of h) msg])
      (Ok (serverError (failure_of h) msg))
| out_serialize_failed fname t0 text doc items rows msg :
    filename req = Some fname -> fname <> "" ->
    ensure_dirs rt (dirs_of h rt) = (t0, Ok tt) ->
    existsSync rt (input_of h rt fname) = true ->
    readFileSync rt (input_of h rt fname) = Ok text ->
    parse_of h rt text = Ok doc ->
    makes_csv h = true ->
    to_convert h rt (jsonPath req) doc = VArr items ->
    flatten_all items = Ok rows ->
    json2csv rt rows = Throw msg ->
    outcome h rt req
      (t0 ++ [EvRead (input_of h rt fname); EvLog (label_of h) msg])
      (Ok (serverError (failure_of h) msg))
| out_write_failed fname t0 file content success msg :
    filename req = Some fname -> fname <> "" ->
    ensure_dirs rt (dirs_of h rt) = (t0, Ok tt) ->
    existsSync rt (input_of h rt fname) = true ->
    steps_of h rt req = Some (file, content, success) ->
    writeFileSync rt file content = Throw msg ->
    outcome h rt req
      (t0 ++ [EvRead (input_of h rt fname); EvWrite file content;
              EvLog (label_of h) msg])
      (Ok (serverError (failure_of h) msg))
| out_done fname t0 file content success :
    filename req = Some fname -> fname <> "" ->
    ensure_dirs rt (dirs_of h rt) = (t0, Ok tt) ->
    existsSync rt (input_of h rt fname) = true ->
    steps_of h rt req = Some (file, content, success) ->
    writeFileSync rt file content = Ok tt ->
    outcome h rt req
      (t0 ++ [EvRead (input_of h rt fname); EvWrite file content])
      (Ok success).

(** * Properties *)

(** ** Folds and assignments *)

Lemma fold_left_invariant (A B : Type) (f : A -> B -> A)
  (P : A -> Prop) (Q : B -> Prop) :
  (forall a b, P a -> Q b -> P (f a b)) ->
  forall l a, P a -> Forall Q l -> P (fold_left f l a).
Proof.
  intros step l; induction l as [|b l IH]; intros a Ha Hl; simpl.
  - exact Ha.
  - inversion Hl; subst. apply IH; auto.
Qed.

Lemma in_replace key v o kv :
  In kv (replace key v o) -> kv = (key, v) \/ In kv o.
Proof.
  induction o as [|[k x] o IH]; simpl; [tauto|].
  destruct (k =? key) eqn:E; simpl.
  - apply String.eqb_eq in E; subst. intros [<-|H]; auto.
  - intros [<-|H]; auto. destruct (IH H); auto.
Qed.

Lemma in_insert_index n key v o kv :
  In kv (insert_index n key v o) -> kv = (key, v) \/ In kv o.
Proof.
  induction o as [|[k x] o IH]; simpl.
  - intros [<-|[]]; auto.
  - destruct (array_index k) as [m|]; [destruct (m <? n)%N|]; simpl;
      intros [<-|H]; auto.
    destruct (IH H); auto.
Qed.

Lemma in_put key v o kv :
  In kv (put key v o) -> kv = (key, v) \/ In kv o.
Proof.
  unfold put.
  destruct (has_key key o); [apply in_replace|].
  destruct (array_index key).
  - apply in_insert_index.
  - intros H; apply in_app_or in H. destruct H as [H|[<-|[]]]; auto.
Qed.

(** An assignment adds at most the entry assigned. *)
Lemma in_assign key v o kv :
  In kv (own (assign key v o)) -> kv = (key, v) \/ In kv (own o).
Proof.
  unfold assign.
  destruct (negb (has_key key (own o)) && negb (bare o)
            && (key =? "__proto__")); simpl; [auto|apply in_put].
Qed.

(** ** The attribute marker never survives cleaning *)

Lemma existsb_false (A : Type) (p : A -> bool) (l : list A) :
  existsb p l = false <-> Forall (fun x => p x = false) l.
Proof.
  induction l as [|x l IH]; simpl.
  - split; auto.
  - rewrite orb_false_iff, IH. split.
    + intros [? ?]; constructor; auto.
    + inversion 1; auto.
Qed.

Lemma cleanJson_object entries :
  cleanJson (VObj entries)
  = VObj (own (fold_left (clean_step cleanJson) entries fresh)).
Proof. reflexivity. Qed.

(** What holds of every cleaned value of the entries holds of every
    value of the cleaned object, and no key of it is the marker. *)
Lemma cleaned_values (P : value -> Prop) (entries : object) :
  Forall (fun kv => P (cleanJson (snd kv))) entries ->
  Forall (fun kv => fst kv <> "$" /\ P (snd kv))
         (own (fold_left (clean_step cleanJson) entries fresh)).
Proof.
  apply fold_left_invariant
    with (P := fun cleaned : literal =>
                 Forall (fun kv => fst kv <> "$" /\ P (snd kv))
                        (own cleaned));
    [|constructor].
  intros cleaned [k x] Hc Hx. unfold clean_step. simpl in *.
  destruct (k =? "$") eqn:E; [exact Hc|].
  apply Forall_forall. intros kv Hin.
  apply in_assign in Hin. destruct Hin as [->|Hin].
  - split; [now apply String.eqb_neq|exact Hx].
  - rewrite Forall_forall in Hc. auto.
Qed.

Lemma cleaned_marker_free (v : value) :
  has_key_deep "$" (cleanJson v) = false.
Proof.
  induction v as [| | | |l IH|m IH|] using value_ind; try reflexivity.
  - destruct l as [|x [|y l']]; [reflexivity|now inversion IH|].
    change (existsb (has_key_deep "$") (map cleanJson (x :: y :: l'))
            = false).
    apply existsb_false, Forall_map. exact IH.
  - rewrite cleanJson_object.
    apply (cleaned_values (fun w => has_key_deep "$" w = false)) in IH.
    cbn [has_key_deep]. apply existsb_false.
    revert IH. apply Forall_impl. intros [k x] [Hk Hx]. simpl in *.
    apply String.eqb_neq in Hk. now rewrite Hk, Hx.
Qed.

(** C4. Whatever the value, the cleaned value holds no entry with key
    ["$"] at any depth: not in an object, not in an object inside an
    array, not in an object inside another. *)
Theorem cleanJson_no_marker (v : value) :
  has_marker (cleanJson v) = false.
Proof.
  unfold has_marker.
  induction v as [| | | |l IH|m IH|] using value_ind; try reflexivity.
  - (* arrays *)
    destruct l as [|x [|y l']].
    + reflexivity.
    + now inversion IH.
    + change (existsb (has_key_deep "$") (map cleanJson (x :: y :: l'))
              = false).
      apply existsb_false, Forall_map. exact IH.
  - (* objects *)
    rewrite cleanJson_object.
    apply (cleaned_values (fun w => has_key_deep "$" w = false)) in IH.
    cbn [has_key_deep]. apply existsb_false.
    revert IH. apply Forall_impl. intros [k x] [Hk Hx]. simpl in *.
    apply String.eqb_neq in Hk. now rewrite Hk, Hx.
Qed.

(** ** What flattening leaves as values *)

Lemma flatten_entry_no_object v :
  forall parentKey key result,
    Forall (fun kv => isPlainObject (snd kv) = false) (own result) ->
    Forall (fun kv => isPlainObject (snd kv) = false)
           (own (flatten_entry parentKey key v result)).
Proof.
  induction v as [| | | |l IH|m IH|] using value_ind;
    intros parentKey key result Hres; simpl;
    try (apply Forall_forall; intros kv Hin; apply in_assign in Hin;
         destruct Hin as [->|Hin];
         [reflexivity | rewrite Forall_forall in Hres; auto]).
  revert result Hres.
  induction m as [|[k x] m IHm]; intros result Hres; simpl; [exact Hres|].
  inversion IH; subst. apply IHm; auto.
Qed.

Lemma flattened_no_object (data : object) (parentKey : string) :
  Forall (fun kv => isPlainObject (snd kv) = false)
         (own (flattenJson data parentKey fresh)).
Proof.
  unfold flattenJson.
  apply fold_left_invariant
    with (P := fun result : literal =>
                 Forall (fun kv => isPlainObject (snd kv) = false)
                        (own result))
         (Q := fun _ : string * value => True).
  - intros result [k x] Hres _. now apply flatten_entry_no_object.
  - constructor.
  - apply Forall_forall; auto.
Qed.

(** C5 as stated fails: an array is a container and stays a value of the
    row. *)
Lemma flattenJson_keeps_array :
  own (flattenJson [("a", VArr [VNum one; VNum two; VNum three])] ""
         fresh)
  = [("a", VArr [VNum one; VNum two; VNum three])]
  /\ ~ Forall (fun kv => is_container (snd kv) = false)
         (own (flattenJson
                 [("a", VArr [VNum one; VNum two; VNum three])] ""
                 fresh)).
Proof.
  split; [reflexivity|].
  intros H. inversion H as [|kv l Hkv _]; subst. discriminate Hkv.
Qed.

(** ** The path selector *)


Lemma split_dot_segment (seg : string) :
  has_dot seg = false -> split_dot seg = [seg].
Proof.
  unfold has_dot. induction seg as [|c seg IH]; [reflexivity|].
  cbn [list_ascii_of_string existsb split_dot].
  intros H. apply orb_false_elim in H. destruct H as [Hc Hseg].
  rewrite Ascii.eqb_sym, Hc, (IH Hseg). reflexivity.
Qed.









(** ** What the handlers answer *)

(** Names the paths of a handler that has been unfolded. *)
Ltac name_paths rt fname :=
  change (join rt [join rt [dirname rt; "../../templates/xml"]; fname])
    with (templates_xml_file rt fname);
  change (join rt [join rt [dirname rt; "../../templates/json"];
                   (basename rt fname (extname rt fname) ++ ".json")%string])
    with (templates_json_output rt fname);
  change (join rt [dirname rt; "../../templates/json"; fname])
    with (templates_json_file rt fname);
  change (join rt [dirname rt; "../../templates/csv";
                   (basename rt fname (extname rt fname) ++ ".csv")%string])
    with (templates_csv_output rt fname);
  change (join rt [join rt [dirname rt; "../../uploads"]; fname])
    with (uploads_file rt fname);
  change (join rt [join rt [dirname rt; "../../exports"];
                   (basename rt fname (extname rt fname) ++ ".csv")%string])
    with (exports_csv_output rt fname);
  change (join rt [dirname rt; "../../templates/xml"])
    with (templates_xml_dir rt);
  change (join rt [dirname rt; "../../templates/json"])
    with (templates_json_dir rt);
  change (join rt [dirname rt; "../../uploads"]) with (uploads_dir rt);
  change (join rt [dirname rt; "../../exports"]) with (exports_dir rt).

Lemma falsy_string_some s : s <> "" -> falsy_string (Some s) = false.
Proof. intros H; simpl. now apply String.eqb_neq. Qed.

Lemma to_csv_file_falsy rt p d out :
  truthy d = false ->
  to_csv_file rt p d out = ([], Ok (Some (badRequest (no_such_path p)))).
Proof. intros H; unfold to_csv_file; now rewrite H. Qed.


(** The values [!dataToConvert] holds of. *)
Lemma falsy_values v :
  truthy v = false <->
  v = VNull \/ v = VBool false \/ v = VStr ""
  \/ (exists s, v = VNum (S754_zero s)) \/ v = VNum S754_nan.
Proof.
  split.
  - destruct v as [|b|n|s| | |]; simpl; try discriminate; auto.
    + intros ->; auto.
    + destruct n; try discriminate; eauto 6.
    + destruct s; [auto|discriminate].
  - intros [->|[->|[->|[[s ->]| ->]]]]; reflexivity.
Qed.

(** C10. In [jsonToCsv], when the request has no [jsonPath] and the
    document parsed from the file is falsy ([null], [false], [0], the
    empty string), the handler answers 400 with the path message, the
    missing path rendered [undefined], and not with the not-an-array
    message; nothing is written. *)
Theorem jsonToCsv_falsy_document (rt : runtime) (fname text : string)
  (jsonData : value) :
  fname <> "" ->
  existsSync rt (templates_json_file rt fname) = true ->
  readFileSync rt (templates_json_file rt fname) = Ok text ->
  JSON_parse rt text = Ok jsonData ->
  truthy jsonData = false ->
  jsonToCsv rt {| filename := Some fname; jsonPath := None |}
  = ([EvRead (templates_json_file rt fname)],
     Ok (badRequest "The specified JSON path 'undefined' does not exist."))
  /\ "The specified JSON path 'undefined' does not exist." <> not_an_array.
Proof.
  intros Hf He Hr Hp Ht. split; [|discriminate].
  unfold jsonToCsv. cbn [filename jsonPath].
  rewrite (falsy_string_some Hf). cbn [render].
  fold (templates_json_file rt fname). rewrite He. cbn [negb].
  unfold read. rewrite Hr. cbn. rewrite Hp. cbn.
  rewrite to_csv_file_falsy by exact Ht. reflexivity.
Qed.

Lemma jsonToCsv_falsy_document_witness :
  jsonToCsv (sample_rt VNull true)
    {| filename := Some "data.json"; jsonPath := None |}
  = ([EvRead "/srv/api/controllers/../../templates/json/data.json"],
     Ok (badRequest "The specified JSON path 'undefined' does not exist."))
  /\ jsonToCsv (sample_rt (VNum (num 0)) true)
       {| filename := Some "data.json"; jsonPath := None |}
     = ([EvRead "/srv/api/controllers/../../templates/json/data.json"],
        Ok (badRequest
              "The specified JSON path 'undefined' does not exist.")).
Proof.
  split.
  - refine (proj1 (@jsonToCsv_falsy_document (sample_rt VNull true)
                     "data.json" "<document>" VNull _ _ _ _ _));
      try reflexivity; discriminate.
  - refine (proj1 (@jsonToCsv_falsy_document (sample_rt (VNum (num 0)) true)
                     "data.json" "<document>" (VNum (num 0)) _ _ _ _ _));
      try reflexivity; discriminate.
Defined.








(** ** What the handlers write *)













(** ** The combined handler *)





(** ** Well-formed objects *)

Lemma digit_of_digit d :
  (d < 10)%N -> digit_of (ascii_of_N (48 + d)) = Some d.
Proof.
  intros Hd. unfold digit_of. rewrite N_ascii_embedding by lia.
  replace ((48 <=? 48 + d)%N) with true by (symmetry; apply N.leb_le; lia).
  replace ((48 + d <=? 57)%N) with true by (symmetry; apply N.leb_le; lia).
  cbn [andb]. f_equal. lia.
Qed.

(** Reading the numeral of a number gives the number back. *)
Lemma digits_value_digits_of (fuel : nat) :
  forall n acc,
    (n < 2 ^ N.of_nat fuel)%N ->
    digits_value (digits_of (S fuel) n acc) 0 = digits_value acc n.
Proof.
  induction fuel as [|fuel IH]; intros n acc Hn.
  - assert (n = 0%N) as -> by (simpl in Hn; lia). reflexivity.
  - change (digits_of (S (S fuel)) n acc)
      with (if (n <? 10)%N
            then String (ascii_of_N (48 + n mod 10)) acc
            else digits_of (S fuel) (n / 10)
                   (String (ascii_of_N (48 + n mod 10)) acc)).
    assert (Hmod : (n mod 10 < 10)%N) by (apply N.mod_lt; lia).
    destruct (n <? 10)%N eqn:Hlt.
    + apply N.ltb_lt in Hlt. cbn [digits_value].
      rewrite digit_of_digit by exact Hmod.
      rewrite N.mod_small by exact Hlt. f_equal.
    + rewrite IH.
      * cbn [digits_value]. rewrite digit_of_digit by exact Hmod. f_equal.
        symmetry. apply N.Div0.div_mod.
      * rewrite Nat2N.inj_succ, N.pow_succ_r' in Hn.
        apply N.Div0.div_lt_upper_bound. lia.
Qed.

(** Every numeral below the bound is an array index, its own. *)
Lemma array_index_of_numeral n :
  (n < 2 ^ 32 - 1)%N -> array_index (numeral n) = Some n.
Proof.
  intros Hn. unfold array_index, numeral.
  rewrite digits_value_digits_of.
  - cbn [digits_value]. apply N.ltb_lt in Hn. rewrite Hn.
    now rewrite String.eqb_refl.
  - rewrite N2Nat.id. apply N.size_gt.
Qed.

Lemma array_index_numeral key n :
  array_index key = Some n -> key = numeral n.
Proof.
  unfold array_index.
  destruct (digits_value key 0) as [m|]; [|discriminate].
  destruct ((m <? 2 ^ 32 - 1)%N && (numeral m =? key)) eqn:E;
    [|discriminate].
  intros [= <-]. apply andb_prop in E. destruct E as [_ E].
  apply String.eqb_eq in E. now symmetry.
Qed.

Lemma key_before_neq k k' : key_before k k' = true -> k <> k'.
Proof.
  intros H ->. unfold key_before in H.
  destruct (array_index k').
  - rewrite N.ltb_irrefl in H. discriminate.
  - rewrite String.eqb_refl in H. discriminate.
Qed.

Lemma wf_keys_app l1 l2 :
  wf_keys (l1 ++ l2) = true <->
  wf_keys l1 = true /\ wf_keys l2 = true
  /\ Forall (fun x => Forall (fun y => key_before x y = true) l2) l1.
Proof.
  induction l1 as [|k l1 IH]; simpl.
  - intuition.
  - rewrite !andb_true_iff, forallb_app, andb_true_iff, IH.
    rewrite (forallb_forall (key_before k) l2), <- Forall_forall.
    split.
    + intros [[H1 H2] [H3 [H4 H5]]]. auto.
    + intros [[H1 H3] [H4 H5]]. inversion H5; subst. auto.
Qed.

Lemma has_key_false key o :
  has_key key o = false <-> Forall (fun k => k <> key) (keys o).
Proof.
  unfold has_key, keys. rewrite existsb_false, Forall_map.
  split; apply Forall_impl; intros [k x]; simpl.
  - apply String.eqb_neq.
  - apply String.eqb_neq.
Qed.

Lemma keys_replace key v o : keys (replace key v o) = keys o.
Proof.
  induction o as [|[k x] o IH]; simpl; [reflexivity|].
  destruct (k =? key); simpl; [reflexivity|now rewrite IH].
Qed.

Lemma keys_app o o' : keys (o ++ o') = keys o ++ keys o'.
Proof. apply map_app. Qed.

(** A key that may stand after every key of the object is added at the
    end. *)
Lemma insert_index_end n key v o :
  array_index key = Some n ->
  Forall (fun k => key_before k key = true) (keys o) ->
  insert_index n key v o = o ++ [(key, v)].
Proof.
  intros Hk. induction o as [|[k x] o IH]; simpl; intros H.
  - reflexivity.
  - inversion H as [|? ? Hb Ho]; subst.
    unfold key_before in Hb. rewrite Hk in Hb.
    destruct (array_index k) as [m|]; [|discriminate].
    rewrite Hb. now rewrite IH.
Qed.

Lemma put_end key v o :
  Forall (fun k => key_before k key = true) (keys o) ->
  put key v o = o ++ [(key, v)].
Proof.
  intros H. unfold put.
  assert (Hk : has_key key o = false).
  { apply has_key_false. revert H. apply Forall_impl.
    intros k. apply key_before_neq. }
  rewrite Hk.
  destruct (array_index key) as [n|] eqn:E; [|reflexivity].
  now apply insert_index_end.
Qed.

(** Away from [__proto__] an assignment is the write of an own
    property. *)
Lemma assign_put key v o :
  key <> "__proto__" ->
  assign key v o = {| bare := bare o; own := put key v (own o) |}.
Proof.
  intros H. unfold assign. apply String.eqb_neq in H. rewrite H.
  now rewrite andb_false_r.
Qed.

(** Assigning the retained entries of a well-formed object one after the
    other, none under the key [__proto__], builds them in their order. *)
Lemma fold_clean_step_retain (g : value -> value) (entries : object) :
  forall acc,
    wf_keys (keys acc ++ keys entries) = true ->
    Forall (fun k => k <> "__proto__") (keys entries) ->
    fold_left (clean_step g) entries {| bare := false; own := acc |}
    = {| bare := false; own := acc ++ retain g entries |}.
Proof.
  induction entries as [|[k x] entries IH]; intros acc Hwf Hp; simpl.
  - now rewrite app_nil_r.
  - inversion Hp as [|? ? Hk Hp']; subst.
    simpl in Hwf.
    apply wf_keys_app in Hwf. destruct Hwf as [Ha [Hke Hcross]].
    simpl in Hke. apply andb_prop in Hke. destruct Hke as [Hk1 Hk2].
    assert (Hcross' : Forall (fun a => Forall (fun y => key_before a y = true)
                                         (keys entries)) (keys acc)).
    { revert Hcross. apply Forall_impl. intros a Ha'.
      now inversion Ha'. }
    unfold clean_step at 2. simpl.
    destruct (k =? "$") eqn:E.
    + apply IH; [|exact Hp'].
      apply wf_keys_app. auto.
    + rewrite assign_put by exact Hk. simpl.
      rewrite put_end.
      2:{ revert Hcross. apply Forall_impl. intros a Ha'.
          now inversion Ha'. }
      rewrite IH; [now rewrite <- app_assoc|..|exact Hp'].
      rewrite keys_app. simpl. rewrite <- app_assoc. simpl.
      apply wf_keys_app. split; [exact Ha|]. split.
      * simpl. now rewrite Hk1, Hk2.
      * exact Hcross.
Qed.

Lemma retain_ext (g h : value -> value) (entries : object) :
  Forall (fun kv => g (snd kv) = h (snd kv)) entries ->
  retain g entries = retain h entries.
Proof.
  induction 1 as [|[k x] entries Hx _ IH]; simpl; [reflexivity|].
  simpl in Hx. now rewrite Hx, IH.
Qed.

Lemma has_key_deep_entries key entries :
  has_key_deep key (VObj entries) = false ->
  Forall (fun k => k <> key) (keys entries)
  /\ Forall (fun kv => has_key_deep key (snd kv) = false) entries.
Proof.
  simpl. rewrite existsb_false. intros H. split.
  - unfold keys. apply Forall_map. revert H. apply Forall_impl.
    intros [k x]; simpl. intros Hk. apply orb_false_iff in Hk.
    now apply String.eqb_neq.
  - revert H. apply Forall_impl. intros [k x]; simpl.
    intros Hk. now apply orb_false_iff in Hk.
Qed.

Lemma Forall_map_ext (A B : Type) (f g : A -> B) (l : list A) :
  Forall (fun x => f x = g x) l -> map f l = map g l.
Proof. induction 1; simpl; congruence. Qed.

Lemma Forall_modus (A : Type) (P Q : A -> Prop) (l : list A) :
  Forall (fun x => P x -> Q x) l -> Forall P l -> Forall Q l.
Proof.
  induction 1; intros H'; constructor; inversion H'; subst; auto.
Qed.

(** Away from the key [__proto__] the cleaner is the one of the
    specification: on every well-formed value with no such key at any
    depth. *)
Lemma cleanJson_clean_spec (v : value) :
  well_formed v = true ->
  has_key_deep "__proto__" v = false ->
  cleanJson v = clean_spec v.
Proof.
  induction v as [| | | |l IH|m IH|] using value_ind; intros Hwf Hp;
    try reflexivity.
  - (* arrays *)
    simpl in Hwf, Hp.
    rewrite forallb_forall, <- Forall_forall in Hwf.
    rewrite existsb_false in Hp.
    assert (Hall : Forall (fun x => cleanJson x = clean_spec x) l).
    { clear - IH Hwf Hp. induction IH; constructor;
        inversion Hwf; inversion Hp; subst; auto. }
    destruct l as [|x [|y l']].
    + reflexivity.
    + simpl. now inversion Hall.
    + change (VArr (map cleanJson (x :: y :: l'))
              = VArr (map clean_spec (x :: y :: l'))).
      f_equal. now apply Forall_map_ext.
  - (* objects *)
    destruct (has_key_deep_entries _ _ Hp) as [Hkeys Hvals].
    simpl in Hwf. apply andb_prop in Hwf. destruct Hwf as [Hk Hw].
    rewrite forallb_forall, <- Forall_forall in Hw.
    rewrite cleanJson_object. unfold fresh.
    rewrite fold_clean_step_retain; [|exact Hk|exact Hkeys].
    simpl. f_equal. apply retain_ext.
    clear - IH Hw Hvals. induction IH; constructor;
      inversion Hw; inversion Hvals; subst; auto.
Qed.

Lemma clean_spec_fixed (v : value) :
  has_key_deep "$" v = false ->
  has_singleton v = false ->
  clean_spec v = v.
Proof.
  induction v as [| | | |l IH|m IH|] using value_ind; intros Hm Hs;
    try reflexivity.
  - simpl in Hm, Hs. apply orb_false_iff in Hs. destruct Hs as [Hlen Hs].
    rewrite existsb_false in Hm, Hs.
    assert (Hall : Forall (fun x => clean_spec x = x) l).
    { clear - IH Hm Hs. induction IH; constructor;
        inversion Hm; inversion Hs; subst; auto. }
    destruct l as [|x [|y l']]; [reflexivity|discriminate|].
    change (VArr (map clean_spec (x :: y :: l')) = VArr (x :: y :: l')).
    f_equal. rewrite (Forall_map_ext _ _ Hall). apply map_id.
  - destruct (has_key_deep_entries _ _ Hm) as [Hkeys Hvals].
    simpl in Hs. rewrite existsb_false in Hs.
    simpl. f_equal.
    clear - IH Hkeys Hvals Hs.
    induction m as [|[k x] m IHm]; simpl; [reflexivity|].
    inversion IH; inversion Hkeys; inversion Hvals; inversion Hs; subst.
    simpl in *.
    match goal with H : k <> "$" |- _ => apply String.eqb_neq in H;
                                         rewrite H end.
    f_equal; [f_equal; auto|auto].
Qed.

(** *** Assignment keeps an object well formed *)

Lemma in_keys_insert_index n key v o k :
  In k (keys (insert_index n key v o)) -> k = key \/ In k (keys o).
Proof.
  unfold keys. rewrite !in_map_iff. intros [[k' x] [<- Hin]].
  apply in_insert_index in Hin. destruct Hin as [[= -> ->]|Hin]; auto.
  right. exists (k', x). auto.
Qed.

Lemma insert_index_wf n key v o :
  array_index key = Some n ->
  has_key key o = false ->
  wf_keys (keys o) = true ->
  wf_keys (keys (insert_index n key v o)) = true.
Proof.
  intros Hk. induction o as [|[k x] o IH]; intros Hno Hwf.
  - reflexivity.
  - simpl in Hno. apply orb_false_iff in Hno. destruct Hno as [Hne Hno].
    apply String.eqb_neq in Hne.
    simpl in Hwf. apply andb_prop in Hwf. destruct Hwf as [Hb Hwf].
    rewrite forallb_forall in Hb.
    simpl. destruct (array_index k) as [m|] eqn:Ek.
    + destruct (m <? n)%N eqn:Hmn.
      * simpl. rewrite IH by assumption. rewrite andb_true_r.
        apply forallb_forall. intros y Hy.
        apply in_keys_insert_index in Hy. destruct Hy as [->|Hy]; auto.
        unfold key_before. now rewrite Ek, Hk.
      * assert (Hlt : (n <? m)%N = true).
        { apply N.ltb_lt. apply N.ltb_ge in Hmn.
          destruct (N.eq_dec m n) as [->|]; [|lia].
          apply array_index_numeral in Ek, Hk. congruence. }
        change (forallb (key_before key) (k :: keys o)
                && (forallb (key_before k) (keys o) && wf_keys (keys o))
                = true).
        rewrite Hwf, andb_true_r.
        rewrite (proj2 (forallb_forall (key_before k) (keys o)) Hb).
        rewrite andb_true_r. apply forallb_forall.
        intros y [<-|Hy]; unfold key_before; rewrite Hk.
        -- now rewrite Ek.
        -- specialize (Hb y Hy). unfold key_before in Hb.
           rewrite Ek in Hb. destruct (array_index y) as [m'|]; auto.
           apply N.ltb_lt in Hb, Hlt. apply N.ltb_lt. lia.
    + change (forallb (key_before key) (k :: keys o)
              && (forallb (key_before k) (keys o) && wf_keys (keys o))
              = true).
      rewrite Hwf, andb_true_r.
      rewrite (proj2 (forallb_forall (key_before k) (keys o)) Hb).
      rewrite andb_true_r. apply forallb_forall.
      intros y [<-|Hy]; unfold key_before; rewrite Hk.
      * now rewrite Ek.
      * specialize (Hb y Hy). unfold key_before in Hb.
        rewrite Ek in Hb. destruct (array_index y); [discriminate|auto].
Qed.

Lemma put_wf key v o :
  wf_keys (keys o) = true -> wf_keys (keys (put key v o)) = true.
Proof.
  intros Hwf. unfold put.
  destruct (has_key key o) eqn:Hk; [now rewrite keys_replace|].
  destruct (array_index key) as [n|] eqn:E.
  - now apply insert_index_wf.
  - rewrite keys_app. apply wf_keys_app. split; [exact Hwf|].
    split; [reflexivity|].
    apply has_key_false in Hk. revert Hk. apply Forall_impl.
    intros k Hne. constructor; [|constructor].
    cbn [fst]. unfold key_before. rewrite E.
    destruct (array_index k); [reflexivity|].
    apply String.eqb_neq in Hne. now rewrite Hne.
Qed.

Lemma assign_wf key v o :
  wf_keys (keys (own o)) = true ->
  wf_keys (keys (own (assign key v o))) = true.
Proof.
  intros Hwf. unfold assign.
  destruct (negb (has_key key (own o)) && negb (bare o)
            && (key =? "__proto__")); simpl; [exact Hwf|].
  now apply put_wf.
Qed.

Lemma in_keys_put key v o k :
  In k (keys (put key v o)) -> k = key \/ In k (keys o).
Proof.
  unfold keys. rewrite !in_map_iff. intros [[k' x] [<- Hin]].
  apply in_put in Hin. destruct Hin as [[= -> ->]|Hin]; auto.
  right. exists (k', x). auto.
Qed.

(** *** What the cleaner returns *)

Lemma cleaned_wf (g : value -> value) (entries : object) :
  wf_keys (keys (own (fold_left (clean_step g) entries fresh))) = true.
Proof.
  apply fold_left_invariant
    with (P := fun cleaned : literal => wf_keys (keys (own cleaned)) = true)
         (Q := fun _ : string * value => True);
    [|reflexivity|apply Forall_forall; auto].
  intros cleaned [k x] Hc _. unfold clean_step. simpl.
  destruct (k =? "$"); [exact Hc|]. now apply assign_wf.
Qed.

(** The keys of an object are distinct, so the loop assigns under
    [__proto__] once at most, and then to an object whose prototype is
    still the one [{}] gave it: no entry is made. *)
Lemma cleaned_no_proto_key (g : value -> value) (entries : object) :
  forall cleaned,
    wf_keys (keys entries) = true ->
    ~ In "__proto__" (keys (own cleaned)) ->
    (bare cleaned = true -> ~ In "__proto__" (keys entries)) ->
    ~ In "__proto__"
        (keys (own (fold_left (clean_step g) entries cleaned))).
Proof.
  induction entries as [|[k x] entries IH]; intros cleaned Hwf Hown Hbare;
    simpl; [exact Hown|].
  simpl in Hwf. apply andb_prop in Hwf. destruct Hwf as [Hk Hwf].
  rewrite forallb_forall in Hk.
  assert (Hfresh : ~ In k (keys entries)).
  { intros Hin. apply (key_before_neq (Hk _ Hin)). reflexivity. }
  unfold clean_step at 2. simpl.
  destruct (k =? "$") eqn:E.
  { apply IH; auto. intros Hb Hin. apply (Hbare Hb). now right. }
  destruct (String.eqb_spec k "__proto__") as [->|Hne].
  - assert (Hb : bare cleaned = false).
    { destruct (bare cleaned); [|reflexivity].
      exfalso. apply Hbare; [reflexivity|now left]. }
    assert (Hh : has_key "__proto__" (own cleaned) = false).
    { apply has_key_false, Forall_forall. intros k Hin ->. auto. }
    unfold assign. rewrite Hh, Hb. simpl. apply IH; auto.
  - rewrite assign_put by exact Hne. apply IH; simpl; auto.
    + intros Hin. apply in_keys_put in Hin.
      destruct Hin as [Heq|Hin]; [now apply Hne|auto].
    + intros Hb Hin. apply (Hbare Hb). now right.
Qed.

Lemma cleanJson_well_formed (v : value) : well_formed (cleanJson v) = true.
Proof.
  induction v as [| | | |l IH|m IH|] using value_ind; try reflexivity.
  - destruct l as [|x [|y l']]; [reflexivity|now inversion IH|].
    change (forallb well_formed (map cleanJson (x :: y :: l')) = true).
    apply forallb_forall. intros z Hz. apply in_map_iff in Hz.
    destruct Hz as [w [<- Hw]]. rewrite Forall_forall in IH. auto.
  - rewrite cleanJson_object. cbn [well_formed].
    rewrite cleaned_wf. simpl.
    apply (cleaned_values (fun w => well_formed w = true)) in IH.
    apply forallb_forall. rewrite Forall_forall in IH.
    intros kv Hin. now apply IH.
Qed.

Lemma cleanJson_no_proto_key (v : value) :
  well_formed v = true ->
  has_key_deep "__proto__" (cleanJson v) = false.
Proof.
  induction v as [| | | |l IH|m IH|] using value_ind; intros Hwf;
    try reflexivity.
  - simpl in Hwf. rewrite forallb_forall, <- Forall_forall in Hwf.
    pose proof (@Forall_modus _ _ _ _ IH Hwf) as Hall.
    destruct l as [|x [|y l']]; [reflexivity|now inversion Hall|].
    change (existsb (has_key_deep "__proto__")
              (map cleanJson (x :: y :: l')) = false).
    apply existsb_false, Forall_map. exact Hall.
  - simpl in Hwf. apply andb_prop in Hwf. destruct Hwf as [Hk Hw].
    rewrite forallb_forall, <- Forall_forall in Hw.
    pose proof (@Forall_modus _ _ _ _ IH Hw) as Hall.
    apply (cleaned_values
             (fun w => has_key_deep "__proto__" w = false)) in Hall.
    pose proof (@cleaned_no_proto_key cleanJson m fresh Hk
                  (fun H => H) (fun H => False_ind _ (diff_false_true H)))
      as Hkeys.
    rewrite cleanJson_object. cbn [has_key_deep]. apply existsb_false.
    rewrite Forall_forall in *. intros [k x] Hin.
    destruct (Hall _ Hin) as [_ Hx]. simpl in *. rewrite Hx.
    rewrite orb_false_r. apply String.eqb_neq. intros ->.
    apply Hkeys. unfold keys. apply in_map_iff. exists ("__proto__", x).
    auto.
Qed.

Lemma cleanJson_no_singleton (v : value) :
  has_singleton (cleanJson v) = false.
Proof.
  induction v as [| | | |l IH|m IH|] using value_ind; try reflexivity.
  - destruct l as [|x [|y l']]; [reflexivity|now inversion IH|].
    change (Nat.eqb (List.length (map cleanJson (x :: y :: l'))) 1
            || existsb has_singleton (map cleanJson (x :: y :: l'))
            = false).
    apply orb_false_iff. split; [reflexivity|].
    apply existsb_false, Forall_map. exact IH.
  - rewrite cleanJson_object. cbn [has_singleton].
    apply (cleaned_values (fun w => has_singleton w = false)) in IH.
    apply existsb_false. revert IH. apply Forall_impl. tauto.
Qed.

(** The cleaner is idempotent, on every well-formed value. *)
Lemma cleanJson_idempotent (v : value) :
  well_formed v = true ->
  cleanJson (cleanJson v) = cleanJson v.
Proof.
  intros Hwf. rewrite cleanJson_clean_spec.
  - apply clean_spec_fixed.
    + apply cleaned_marker_free.
    + apply cleanJson_no_singleton.
  - apply cleanJson_well_formed.
  - now apply cleanJson_no_proto_key.
Qed.

(** The cleaner leaves a well-formed value as it is when the value has
    no key ["$"], no key [__proto__] and no array of one element. *)
Lemma cleanJson_fixed (v : value) :
  well_formed v = true ->
  has_key_deep "__proto__" v = false ->
  has_marker v = false ->
  has_singleton v = false ->
  cleanJson v = v.
Proof.
  intros Hwf Hp Hm Hs. rewrite cleanJson_clean_spec by assumption.
  now apply clean_spec_fixed.
Qed.

(** ** The key [__proto__] *)

Lemma has_slash_join a b :
  has_slash (String.append a (String "/" b)) = true.
Proof.
  unfold has_slash. induction a as [|c a IH].
  - reflexivity.
  - change (Ascii.eqb "/" c
            || existsb (Ascii.eqb "/")
                 (list_ascii_of_string (String.append a (String "/" b)))
            = true).
    rewrite IH. apply orb_true_r.
Qed.

Lemma join_key_proto parentKey key :
  key <> "__proto__" -> join_key parentKey key <> "__proto__".
Proof.
  intros Hk. unfold join_key. destruct (parentKey =? ""); [exact Hk|].
  intros H. pose proof (has_slash_join parentKey key) as Hs.
  change (String.append parentKey (String "/" key) = "__proto__") in H.
  rewrite H in Hs. discriminate Hs.
Qed.

Lemma flatten_entry_spec_agrees (v : value) :
  forall parentKey key cut result,
    key <> "__proto__" ->
    has_key_deep "__proto__" v = false ->
    flatten_entry parentKey key v {| bare := cut; own := result |}
    = {| bare := cut;
         own := flatten_entry_spec parentKey key v result |}.
Proof.
  induction v as [| | | |l IH|m IH|] using value_ind;
    intros parentKey key cut result Hk Hp;
    try (apply assign_put, join_key_proto, Hk).
  destruct (has_key_deep_entries _ _ Hp) as [Hkeys Hvals].
  simpl.
  change (if parentKey =? "" then key
          else String.append parentKey (String "/" key))
    with (join_key parentKey key).
  generalize (join_key parentKey key) as newKey. intros newKey.
  clear Hp Hk. revert result.
  induction m as [|[k x] m IHm]; intros result; simpl; [reflexivity|].
  inversion IH; inversion Hkeys; inversion Hvals; subst. simpl in *.
  match goal with H : forall _ _ _ _, _ -> _ -> flatten_entry _ _ x _ = _
                  |- _ => rewrite H by assumption end.
  now apply IHm.
Qed.

(** Away from the key [__proto__] the flattener is the one of the
    specification. *)
Lemma flattenJson_flatten_spec (data : object) (parentKey : string) :
  has_key_deep "__proto__" (VObj data) = false ->
  own (flattenJson data parentKey fresh) = flatten_spec data parentKey.
Proof.
  intros Hp. destruct (has_key_deep_entries _ _ Hp) as [Hkeys Hvals].
  clear Hp. unfold flattenJson, flatten_spec, fresh.
  generalize (@nil (string * value)).
  induction data as [|[k x] data IH]; intros result; simpl; [reflexivity|].
  inversion Hkeys; inversion Hvals; subst. simpl in *.
  rewrite flatten_entry_spec_agrees by assumption.
  now apply IH.
Qed.

(** C1 at the entry [__proto__]. The object [{"__proto__": "x", "a":
    "y"}] is well formed and has no entry at ["$"]; the specification
    keeps both entries; [cleanJson] returns [{"a": "y"}], because the
    assignment [cleaned["__proto__"] = ...] reaches the setter of
    [Object.prototype] and creates no entry. *)
Theorem cleanJson_drops_proto_entry :
  well_formed doc_proto = true
  /\ clean_spec doc_proto = doc_proto
  /\ cleanJson doc_proto = VObj [("a", VStr "y")]
  /\ cleanJson doc_proto <> clean_spec doc_proto.
Proof. repeat split. discriminate. Qed.

(** C2 at the entry [__proto__]. The two examples of the specification
    hold:
    [flatten({"a": {"b": 1, "c": 2}}) = {"a/b": 1, "a/c": 2}] and
    [flatten({"a": [1,2,3]}) = {"a": [1,2,3]}]. The row
    [{"__proto__": 1, "a": 2}] flattens to [{"a": 2}] where the
    specification binds both keys: [result["__proto__"] = 1] creates no
    entry. *)
Theorem flattenJson_drops_proto_entry :
  own (flattenJson [("a", VObj [("b", VNum one); ("c", VNum two)])] ""
         fresh)
  = [("a/b", VNum one); ("a/c", VNum two)]
  /\ own (flattenJson [("a", VArr [VNum one; VNum two; VNum three])] ""
            fresh)
     = [("a", VArr [VNum one; VNum two; VNum three])]
  /\ flatten_spec [("__proto__", VNum one); ("a", VNum two)] ""
     = [("__proto__", VNum one); ("a", VNum two)]
  /\ own (flattenJson [("__proto__", VNum one); ("a", VNum two)] ""
            fresh)
     = [("a", VNum two)].
Proof. repeat split. Qed.

(** C6 at the entry [__proto__]. The cleaner is idempotent on every
    well-formed value. The object [{"__proto__": "x"}] is well formed,
    has no key ["$"] and no array of one element at any depth, and is not
    returned as it is: [cleanJson] returns the empty object. *)
Theorem cleanJson_proto_not_fixed :
  (forall v, well_formed v = true ->
             cleanJson (cleanJson v) = cleanJson v)
  /\ well_formed (VObj [("__proto__", VStr "x")]) = true
  /\ has_marker (VObj [("__proto__", VStr "x")]) = false
  /\ has_singleton (VObj [("__proto__", VStr "x")]) = false
  /\ cleanJson (VObj [("__proto__", VStr "x")]) = VObj []
  /\ cleanJson (VObj [("__proto__", VStr "x")])
     <> VObj [("__proto__", VStr "x")].
Proof.
  split; [exact cleanJson_idempotent|]. repeat split. discriminate.
Qed.

(** ** The runs of the handlers, stage by stage *)

Lemma to_csv_file_cases rt p d out :
  (truthy d = false
   /\ to_csv_file rt p d out
      = ([], Ok (Some (badRequest (no_such_path p)))))
  \/ (truthy d = true /\ isArray d = false
      /\ to_csv_file rt p d out = ([], Ok (Some (badRequest not_an_array))))
  \/ (exists items,
         d = VArr items
         /\ ((exists msg, flatten_all items = Throw msg
                          /\ to_csv_file rt p d out = ([], Throw msg))
             \/ exists rows,
                  flatten_all items = Ok rows
                  /\ ((exists msg, json2csv rt rows = Throw msg
                                   /\ to_csv_file rt p d out = ([], Throw msg))
                      \/ exists csv,
                           json2csv rt rows = Ok csv
                           /\ ((writeFileSync rt out csv = Ok tt
                                /\ to_csv_file rt p d out
                                   = ([EvWrite out csv], Ok None))
                               \/ exists msg,
                                    writeFileSync rt out csv = Throw msg
                                    /\ to_csv_file rt p d out
                                       = ([EvWrite out csv], Throw msg))))).
Proof.
  unfold to_csv_file.
  destruct (truthy d) eqn:Ht; cbn [negb]; [|left; auto].
  destruct d as [| | | |items| |];
    try (right; left; repeat split; reflexivity).
  right; right. exists items. split; [reflexivity|].
  unfold pure, call, write. cbn [bind].
  destruct (flatten_all items) as [rows|msg]; cbn; [|left; eauto].
  right. exists rows. split; [reflexivity|].
  destruct (json2csv rt rows) as [csv|msg]; cbn; [|left; eauto].
  right. exists csv. split; [reflexivity|].
  destruct (writeFileSync rt out csv) as [[]|msg]; cbn; eauto.
Qed.

Lemma outcome_trace h rt req t t' r :
  outcome h rt req t r -> t = t' -> outcome h rt req t' r.
Proof. now intros H <-. Qed.

Ltac same_trace :=
  cbn [app]; rewrite ?app_nil_r, <- ?app_assoc; cbn [app]; reflexivity.

Lemma jsonToCsv_outcome rt req t r :
  jsonToCsv rt req = (t, r) -> outcome JsonToCsv rt req t r.
Proof.
  unfold jsonToCsv.
  destruct (falsy_string (filename req)) eqn:Hf.
  { intros [= <- <-]. now apply out_no_filename. }
  destruct (filename req) as [fname|] eqn:Hfn; [|discriminate].
  assert (Hne : fname <> "") by (now apply String.eqb_neq).
  cbn [render]. name_paths rt fname.
  destruct (existsSync rt (templates_json_file rt fname)) eqn:He;
    cbn [negb].
  2:{ intros [= <- <-]. now apply out_not_found with (fname := fname). }
  unfold read, pure, call, log.
  destruct (readFileSync rt (templates_json_file rt fname))
    as [text|msg] eqn:Hr; cbn.
  2:{ intros [= <- <-].
      now apply (@out_read_failed JsonToCsv rt req fname [] msg). }
  destruct (JSON_parse rt text) as [doc|msg] eqn:Hp; cbn.
  2:{ intros [= <- <-].
      now apply (@out_parse_failed JsonToCsv rt req fname [] text msg). }
  fold (selected rt (jsonPath req) doc).
  assert (Hsteps : forall csv,
             csv_of rt (selected rt (jsonPath req) doc) = Some csv ->
             steps_of JsonToCsv rt req
             = Some (templates_csv_output rt fname, csv,
                     json {| message :=
                               "JSON successfully converted to CSV and saved.";
                             jsonFilePath := None;
                             data := None;
                             csvFilePath :=
                               Some (templates_csv_output rt fname) |})).
  { intros csv Hcsv. cbn [steps_of]. unfold jsonToCsv_steps.
    now rewrite Hfn, Hr, Hp, Hcsv. }
  destruct (to_csv_file_cases rt (jsonPath req)
              (selected rt (jsonPath req) doc)
              (templates_csv_output rt fname))
    as [[Ht ->]|[[Ht [Ha ->]]|[items [Hd Hcases]]]]; cbn.
  - intros [= <- <-].
    now apply (@out_absent JsonToCsv rt req fname [] text doc).
  - intros [= <- <-].
    now apply (@out_not_array JsonToCsv rt req fname [] text doc).
  - destruct Hcases as [[msg [Hfl ->]]|[rows [Hfl Hcases]]]; cbn.
    { intros [= <- <-].
      now apply (@out_flatten_failed JsonToCsv rt req fname [] text doc
                   items msg). }
    destruct Hcases as [[msg [Hc ->]]|[csv [Hc Hcases]]]; cbn.
    { intros [= <- <-].
      now apply (@out_serialize_failed JsonToCsv rt req fname [] text doc
                   items rows msg). }
    assert (Hcsv : csv_of rt (selected rt (jsonPath req) doc) = Some csv).
    { rewrite Hd. unfold csv_of. now rewrite Hfl, Hc. }
    destruct Hcases as [[Hw ->]|[msg [Hw ->]]]; cbn; intros [= <- <-].
    + eapply (@out_done JsonToCsv rt req fname []); eauto.
    + eapply (@out_write_failed JsonToCsv rt req fname []); eauto.
Qed.

Lemma ensure_two rt d1 d2 :
  exists t1,
    (exists msg, ensureDirectory rt d1 = (t1, Throw msg)
                 /\ ensure_dirs rt [d1; d2] = (t1, Throw msg))
    \/ (ensureDirectory rt d1 = (t1, Ok tt)
        /\ exists t2,
             (exists msg, ensureDirectory rt d2 = (t2, Throw msg)
                          /\ ensure_dirs rt [d1; d2] = (t1 ++ t2, Throw msg))
             \/ (ensureDirectory rt d2 = (t2, Ok tt)
                 /\ ensure_dirs rt [d1; d2] = (t1 ++ t2, Ok tt))).
Proof.
  cbn [ensure_dirs].
  destruct (ensureDirectory rt d1) as [t1 [[]|msg]]; exists t1.
  2:{ left. exists msg. auto. }
  right. split; [reflexivity|].
  destruct (ensureDirectory rt d2) as [t2 [[]|msg]]; exists t2; cbn.
  - right. now rewrite app_nil_r.
  - left. exists msg. auto.
Qed.

Lemma convert_outcome rt req t r :
  convert rt req = (t, r) -> outcome XmlToCsv rt req t r.
Proof.
  unfold convert.
  destruct (falsy_string (filename req)) eqn:Hf.
  { intros [= <- <-]. now apply out_no_filename. }
  destruct (filename req) as [fname|] eqn:Hfn; [|discriminate].
  assert (Hne : fname <> "") by (now apply String.eqb_neq).
  cbn [render]. name_paths rt fname.
  fold (path_or_default (jsonPath req)).
  destruct (ensure_two rt (uploads_dir rt) (exports_dir rt))
    as [t1 [[msg [-> Hd]]|[-> [t2 [[msg [-> Hd]]|[-> Hd]]]]]]; cbn [bind].
  { intros [= <- <-]. now apply out_mkdir_failed with (fname := fname). }
  { intros [= <- <-]. now apply out_mkdir_failed with (fname := fname). }
  destruct (existsSync rt (uploads_file rt fname)) eqn:He; cbn [negb].
  2:{ intros [= <- <-].
      apply outcome_trace with (t := t1 ++ t2); [|same_trace].
      now apply out_not_found with (fname := fname). }
  unfold read, pure, call, log.
  destruct (readFileSync rt (uploads_file rt fname))
    as [text|msg] eqn:Hr; cbn.
  2:{ intros [= <- <-]. eapply outcome_trace.
      - now apply (@out_read_failed XmlToCsv rt req fname (t1 ++ t2) msg).
      - same_trace. }
  destruct (parseStringPromise rt text) as [doc|msg] eqn:Hp; cbn.
  2:{ intros [= <- <-]. eapply outcome_trace.
      - now apply (@out_parse_failed XmlToCsv rt req fname (t1 ++ t2)
                     text msg).
      - same_trace. }
  assert (Hsteps : forall csv,
             csv_of rt (select_reduce rt (cleanJson doc)
                          (path_or_default (jsonPath req))) = Some csv ->
             steps_of XmlToCsv rt req
             = Some (exports_csv_output rt fname, csv,
                     json {| message :=
                               "XML successfully converted to JSON and CSV.";
                             jsonFilePath := None;
                             data := Some (cleanJson doc);
                             csvFilePath :=
                               Some (exports_csv_output rt fname) |})).
  { intros csv Hcsv. cbn [steps_of]. unfold convert_steps.
    now rewrite Hfn, Hr, Hp, Hcsv. }
  destruct (to_csv_file_cases rt (Some (path_or_default (jsonPath req)))
              (select_reduce rt (cleanJson doc)
                 (path_or_default (jsonPath req)))
              (exports_csv_output rt fname))
    as [[Ht ->]|[[Ht [Ha ->]]|[items [Hv Hcases]]]]; cbn.
  - intros [= <- <-]. eapply outcome_trace.
    + now apply (@out_absent XmlToCsv rt req fname (t1 ++ t2) text doc).
    + same_trace.
  - intros [= <- <-]. eapply outcome_trace.
    + now apply (@out_not_array XmlToCsv rt req fname (t1 ++ t2) text doc).
    + same_trace.
  - destruct Hcases as [[msg [Hfl ->]]|[rows [Hfl Hcases]]]; cbn.
    { intros [= <- <-]. eapply outcome_trace.
      - now apply (@out_flatten_failed XmlToCsv rt req fname (t1 ++ t2)
                     text doc items msg).
      - same_trace. }
    destruct Hcases as [[msg [Hc ->]]|[csv [Hc Hcases]]]; cbn.
    { intros [= <- <-]. eapply outcome_trace.
      - now apply (@out_serialize_failed XmlToCsv rt req fname (t1 ++ t2)
                     text doc items rows msg).
      - same_trace. }
    assert (Hcsv : csv_of rt (select_reduce rt (cleanJson doc)
                                (path_or_default (jsonPath req)))
                   = Some csv).
    { rewrite Hv. unfold csv_of. now rewrite Hfl, Hc. }
    destruct Hcases as [[Hw ->]|[msg [Hw ->]]]; cbn; intros [= <- <-];
      eapply outcome_trace.
    + eapply (@out_done XmlToCsv rt req fname (t1 ++ t2)); eauto.
    + same_trace.
    + eapply (@out_write_failed XmlToCsv rt req fname (t1 ++ t2)); eauto.
    + same_trace.
Qed.

Lemma xmlToJson_outcome rt req t r :
  xmlToJson rt req = (t, r) -> outcome XmlToJson rt req t r.
Proof.
  unfold xmlToJson.
  destruct (falsy_string (filename req)) eqn:Hf.
  { intros [= <- <-]. now apply out_no_filename. }
  destruct (filename req) as [fname|] eqn:Hfn; [|discriminate].
  assert (Hne : fname <> "") by (now apply String.eqb_neq).
  cbn [render]. name_paths rt fname.
  destruct (ensure_two rt (templates_xml_dir rt) (templates_json_dir rt))
    as [t1 [[msg [-> Hd]]|[-> [t2 [[msg [-> Hd]]|[-> Hd]]]]]]; cbn [bind].
  { intros [= <- <-]. now apply out_mkdir_failed with (fname := fname). }
  { intros [= <- <-]. now apply out_mkdir_failed with (fname := fname). }
  destruct (existsSync rt (templates_xml_file rt fname)) eqn:He;
    cbn [negb].
  2:{ intros [= <- <-].
      apply outcome_trace with (t := t1 ++ t2); [|same_trace].
      now apply out_not_found with (fname := fname). }
  unfold read, write, pure, call, log.
  destruct (readFileSync rt (templates_xml_file rt fname))
    as [text|msg] eqn:Hr; cbn.
  2:{ intros [= <- <-]. eapply outcome_trace.
      - now apply (@out_read_failed XmlToJson rt req fname (t1 ++ t2) msg).
      - same_trace. }
  destruct (parseStringPromise rt text) as [doc|msg] eqn:Hp; cbn.
  2:{ intros [= <- <-]. eapply outcome_trace.
      - now apply (@out_parse_failed XmlToJson rt req fname (t1 ++ t2)
                     text msg).
      - same_trace. }
  assert (Hsteps :
            steps_of XmlToJson rt req
            = Some (templates_json_output rt fname,
                    JSON_stringify rt (cleanJson doc),
                    json {| message :=
                              "XML successfully converted to JSON and saved.";
                            jsonFilePath :=
                              Some (templates_json_output rt fname);
                            data := Some (cleanJson doc);
                            csvFilePath := None |})).
  { cbn [steps_of]. unfold xmlToJson_steps. now rewrite Hfn, Hr, Hp. }
  destruct (writeFileSync rt (templates_json_output rt fname)
              (JSON_stringify rt (cleanJson doc)))
    as [[]|msg] eqn:Hw; cbn; intros [= <- <-]; eapply outcome_trace.
  - eapply (@out_done XmlToJson rt req fname (t1 ++ t2)); eauto.
  - same_trace.
  - eapply (@out_write_failed XmlToJson rt req fname (t1 ++ t2)); eauto.
  - same_trace.
Qed.

(** Every run of a handler ends at one of the stages. *)
Lemma run_outcome h rt req t r :
  run h rt req = (t, r) -> outcome h rt req t r.
Proof.
  destruct h; simpl.
  - apply xmlToJson_outcome.
  - apply jsonToCsv_outcome.
  - apply convert_outcome.
Qed.

(** Making sure of directories makes the missing ones, in order, until
    one cannot be made, and does nothing else. *)
Lemma ensure_dirs_events rt dirs :
  forall t r,
    ensure_dirs rt dirs = (t, r) ->
    Forall (fun e => exists dir, e = EvMkdir dir /\ In dir dirs
                                 /\ existsSync rt dir = false) t
    /\ (forall msg, r = Throw msg ->
                    exists dir, In (EvMkdir dir) t
                                /\ mkdirSync rt dir = Throw msg).
Proof.
  induction dirs as [|dir dirs IH]; intros t r; cbn [ensure_dirs].
  - intros [= <- <-]. split; [constructor|discriminate].
  - unfold ensureDirectory, call, ret.
    destruct (existsSync rt dir) eqn:He; cbn [negb bind].
    + destruct (ensure_dirs rt dirs) as [t' r'] eqn:Hd.
      destruct (IH _ _ eq_refl) as [Hev Hthrow].
      intros [= <- <-]. cbn [app]. split.
      * revert Hev. apply Forall_impl. intros e [d [-> [Hin Hd']]].
        exists d. repeat split; auto. now right.
      * exact Hthrow.
    + destruct (mkdirSync rt dir) as [[]|msg] eqn:Hm.
      * destruct (ensure_dirs rt dirs) as [t' r'] eqn:Hd.
        destruct (IH _ _ eq_refl) as [Hev Hthrow].
        intros [= <- <-]. cbn [app]. split.
        -- constructor.
           ++ exists dir. repeat split; auto. now left.
           ++ revert Hev. apply Forall_impl. intros e [d [-> [Hin Hd']]].
              exists d. repeat split; auto. now right.
        -- intros msg Hr. destruct (Hthrow msg Hr) as [d [Hin Hd']].
           exists d. split; [now right|exact Hd'].
      * intros [= <- <-]. split.
        -- constructor; [|constructor].
           exists dir. repeat split; auto. now left.
        -- intros m [= <-]. exists dir. split; [now left|exact Hm].
Qed.

Lemma mkdir_only_not_in rt dirs t r e :
  ensure_dirs rt dirs = (t, r) -> In e t -> exists dir, e = EvMkdir dir.
Proof.
  intros H Hin. apply ensure_dirs_events in H. destruct H as [H _].
  rewrite Forall_forall in H. destruct (H e Hin) as [d [-> _]]. eauto.
Qed.

(** Settles the stage of a run from what is known of the request and of
    the runtime. *)
Ltac no_filename_clash :=
  match goal with
  | Hn : falsy_string (filename ?req) = true,
    Hf : filename ?req = Some ?fname, Hne : ?fname <> "" |- _ =>
      exfalso; rewrite Hf in Hn; apply Hne; now apply String.eqb_eq
  end.

Ltac pin :=
  repeat match goal with
         | H1 : ?a = _, H2 : ?a = _ |- _ =>
             rewrite H1 in H2;
             first [discriminate H2 | inversion H2; subst; try clear H2]
         end.

Ltac settle Hrun :=
  apply run_outcome in Hrun; inversion Hrun; subst;
  try no_filename_clash; pin; try discriminate.

(** ** What the handlers answer, stage by stage *)

(** When the input file does not exist the handler answers 404, after
    it has made sure of its directories. *)
Lemma typed_not_found h rt req fname t0 :
  filename req = Some fname -> fname <> "" ->
  ensure_dirs rt (dirs_of h rt) = (t0, Ok tt) ->
  existsSync rt (input_of h rt fname) = false ->
  run h rt req = (t0, Ok (notFound (missing_of h))).
Proof.
  intros Hf Hne Hd He.
  destruct (run h rt req) as [t r] eqn:Hrun. settle Hrun. reflexivity.
Qed.

(** X3. When the input file cannot be read, or its text cannot be
    parsed, the handler logs the error under its label and answers 500
    with its failure text and the message of the error; nothing is
    written. *)
Theorem unusable_input_is_500 (h : handler) (rt : runtime) (req : request)
  (fname msg : string) (t0 : list event) :
  filename req = Some fname -> fname <> "" ->
  ensure_dirs rt (dirs_of h rt) = (t0, Ok tt) ->
  existsSync rt (input_of h rt fname) = true ->
  (readFileSync rt (input_of h rt fname) = Throw msg
   \/ exists text, readFileSync rt (input_of h rt fname) = Ok text
                   /\ parse_of h rt text = Throw msg) ->
  run h rt req
  = (t0 ++ [EvRead (input_of h rt fname); EvLog (label_of h) msg],
     Ok (serverError (failure_of h) msg)).
Proof.
  intros Hf Hne Hd He Hfail.
  assert (Hsteps : steps_of h rt req = None).
  { destruct h; cbn [steps_of input_of parse_of] in *;
      [unfold xmlToJson_steps|unfold jsonToCsv_steps|unfold convert_steps];
      rewrite Hf; destruct Hfail as [Hr|[text [Hr Hp]]]; rewrite Hr;
      try rewrite Hp; reflexivity. }
  destruct (run h rt req) as [t r] eqn:Hrun.
  destruct Hfail as [Hr|[text [Hr Hp]]]; settle Hrun; reflexivity.
Qed.

Lemma unusable_input_is_500_witness :
  run JsonToCsv
    (rt_with (fun _ => true) (Ok tt) (Ok "{") (Throw "Unexpected end of JSON input")
       (Ok "") (Ok tt))
    {| filename := Some "data.json"; jsonPath := None |}
  = ([EvRead "/srv/api/controllers/../../templates/json/data.json";
      EvLog "Error during JSON to CSV conversion:"
            "Unexpected end of JSON input"],
     Ok (serverError "Failed to convert JSON to CSV."
                     "Unexpected end of JSON input")).
Proof.
  refine (@unusable_input_is_500 JsonToCsv
            (rt_with (fun _ => true) (Ok tt) (Ok "{")
               (Throw "Unexpected end of JSON input") (Ok "") (Ok tt))
            {| filename := Some "data.json"; jsonPath := None |}
            "data.json" "Unexpected end of JSON input" []
            eq_refl _ eq_refl eq_refl _).
  - discriminate.
  - right. exists "{". split; reflexivity.
Defined.

(** A run whose steps all succeed, the write included, answers the
    success of its handler after the read and the write. *)
Lemma run_succeeds h rt req fname t0 file content success :
  filename req = Some fname -> fname <> "" ->
  ensure_dirs rt (dirs_of h rt) = (t0, Ok tt) ->
  existsSync rt (input_of h rt fname) = true ->
  steps_of h rt req = Some (file, content, success) ->
  writeFileSync rt file content = Ok tt ->
  run h rt req
  = (t0 ++ [EvRead (input_of h rt fname); EvWrite file content],
     Ok success).
Proof.
  intros Hf Hne Hd He Hsteps Hw.
  assert (Hread : exists text doc,
             readFileSync rt (input_of h rt fname) = Ok text
             /\ parse_of h rt text = Ok doc
             /\ (makes_csv h = true ->
                 exists items rows,
                   to_convert h rt (jsonPath req) doc = VArr items
                   /\ flatten_all items = Ok rows
                   /\ json2csv rt rows = Ok content)).
  { destruct h; cbn [steps_of input_of parse_of to_convert makes_csv] in *.
    - unfold xmlToJson_steps in Hsteps. rewrite Hf in Hsteps.
      destruct (readFileSync rt (templates_xml_file rt fname))
        as [text|]; [|discriminate].
      destruct (parseStringPromise rt text) as [doc|] eqn:Hp0;
        [|discriminate].
      exists text, doc. split; [reflexivity|]. split; [exact Hp0|].
      discriminate.
    - unfold jsonToCsv_steps in Hsteps. rewrite Hf in Hsteps.
      destruct (readFileSync rt (templates_json_file rt fname))
        as [text|]; [|discriminate].
      destruct (JSON_parse rt text) as [doc|] eqn:Hp0; [|discriminate].
      exists text, doc. split; [reflexivity|]. split; [exact Hp0|].
      intros _. unfold csv_of in Hsteps.
      destruct (selected rt (jsonPath req) doc) as [| | | |items| |];
        try discriminate.
      destruct (flatten_all items) as [rows|] eqn:Hfl; [|discriminate].
      destruct (json2csv rt rows) as [csv|] eqn:Hc; [|discriminate].
      injection Hsteps as _ <- _. exists items, rows. auto.
    - unfold convert_steps in Hsteps. rewrite Hf in Hsteps.
      destruct (readFileSync rt (uploads_file rt fname))
        as [text|]; [|discriminate].
      destruct (parseStringPromise rt text) as [doc|] eqn:Hp0;
        [|discriminate].
      exists text, doc. split; [reflexivity|]. split; [exact Hp0|].
      intros _. unfold csv_of in Hsteps.
      destruct (select_reduce rt (cleanJson doc)
                  (path_or_default (jsonPath req)))
        as [| | | |items| |]; try discriminate.
      destruct (flatten_all items) as [rows|] eqn:Hfl; [|discriminate].
      destruct (json2csv rt rows) as [csv|] eqn:Hc; [|discriminate].
      injection Hsteps as _ <- _. exists items, rows. auto. }
  destruct Hread as [text [doc [Hr [Hp Hcsv]]]].
  destruct (run h rt req) as [t r] eqn:Hrun.
  apply run_outcome in Hrun; inversion Hrun; subst;
    try no_filename_clash; pin; try discriminate;
    try reflexivity;
    match goal with
    | Hm : makes_csv h = true |- _ =>
        destruct (Hcsv Hm) as [items' [rows' [Hv [Hfl Hc]]]]
    end; pin; try discriminate;
    match goal with
    | Hv : to_convert _ _ _ _ = VArr _, Ht : context [to_convert] |- _ =>
        rewrite Hv in Ht; discriminate Ht
    end.
Qed.

(** ** One row per element *)

Lemma flatten_all_map (items : list value) :
  (~ In VNull items ->
   flatten_all items = Ok (map row_of items))
  /\ (In VNull items ->
      flatten_all items
      = Throw "Cannot convert undefined or null to object").
Proof.
  induction items as [|item items [IHok IHnull]]; split; simpl.
  - reflexivity.
  - intros [].
  - intros Hno.
    assert (Hitem : item <> VNull) by (intros ->; apply Hno; now left).
    rewrite IHok by (intros Hin; apply Hno; now right).
    unfold row_of at 1. destruct item; try reflexivity. now destruct Hitem.
  - intros [->|Hin]; [reflexivity|].
    rewrite (IHnull Hin). destruct item; reflexivity.
Qed.

(** X4. [dataToConvert.map((item) => flattenJson(item))] gives one row
    per element, in order, each the flattening of its element from an
    empty prefix and a new object, when no element is [null]; it throws
    ["Cannot convert undefined or null to object"] when one is. *)
Theorem flatten_all_rows (items : list value) :
  (~ In VNull items ->
   flatten_all items = Ok (map row_of items))
  /\ (In VNull items ->
      flatten_all items
      = Throw "Cannot convert undefined or null to object").
Proof. exact (flatten_all_map items). Qed.



(** X6. A success of [jsonToCsv]: the file is read and parsed, the value
    to convert is the whole document or the one selected, an array
    without [null]; its rows go to the serializer, the CSV text is
    written to the output file named by the stem of the input, and the
    answer carries that path. No directory is made. *)
Theorem jsonToCsv_succeeds (rt : runtime) (fname : string)
  (p : option string) (text : string) (jsonData : value)
  (items : list value) (csv : string) :
  fname <> "" ->
  existsSync rt (templates_json_file rt fname) = true ->
  readFileSync rt (templates_json_file rt fname) = Ok text ->
  JSON_parse rt text = Ok jsonData ->
  selected rt p jsonData = VArr items ->
  ~ In VNull items ->
  json2csv rt (map row_of items) = Ok csv ->
  writeFileSync rt (templates_csv_output rt fname) csv = Ok tt ->
  jsonToCsv rt {| filename := Some fname; jsonPath := p |}
  = ([EvRead (templates_json_file rt fname);
      EvWrite (templates_csv_output rt fname) csv],
     Ok (json {| message := "JSON successfully converted to CSV and saved.";
                 jsonFilePath := None;
                 data := None;
                 csvFilePath := Some (templates_csv_output rt fname) |})).
Proof.
  intros Hne He Hr Hp Hs Hno Hc Hw.
  apply (@run_succeeds JsonToCsv rt
           {| filename := Some fname; jsonPath := p |} fname []);
    auto.
  cbn [steps_of]. unfold jsonToCsv_steps. cbn [filename jsonPath].
  rewrite Hr, Hp, Hs. unfold csv_of.
  rewrite (proj1 (flatten_all_map items) Hno). now rewrite Hc.
Qed.

Lemma jsonToCsv_succeeds_witness :
  jsonToCsv (sample_rt doc_rows_table true)
    {| filename := Some "data.json"; jsonPath := Some "rows" |}
  = ([EvRead "/srv/api/controllers/../../templates/json/data.json";
      EvWrite "/srv/api/controllers/../../templates/csv/data.csv" "<csv>"],
     Ok (json {| message := "JSON successfully converted to CSV and saved.";
                 jsonFilePath := None;
                 data := None;
                 csvFilePath :=
                   Some "/srv/api/controllers/../../templates/csv/data.csv"
              |})).
Proof.
  refine (@jsonToCsv_succeeds (sample_rt doc_rows_table true) "data.json"
            (Some "rows") "<document>" doc_rows_table
            [VObj [("a", VNum one); ("b", VObj [("c", VNum two)])]]
            "<csv>" _ eq_refl eq_refl eq_refl eq_refl _ eq_refl eq_refl).
  - discriminate.
  - intros [H|[]]. discriminate H.
Defined.

(** ** What an answer tells *)



Lemma steps_shape h rt req file content b :
  steps_of h rt req = Some (file, content, json b) ->
  exists fname text doc,
    filename req = Some fname
    /\ readFileSync rt (input_of h rt fname) = Ok text
    /\ parse_of h rt text = Ok doc
    /\ match h with
       | XmlToJson =>
           jsonFilePath b = Some file /\ csvFilePath b = None
           /\ data b = Some (cleanJson doc)
           /\ content = JSON_stringify rt (cleanJson doc)
       | JsonToCsv =>
           jsonFilePath b = None /\ csvFilePath b = Some file
           /\ data b = None
       | XmlToCsv =>
           jsonFilePath b = None /\ csvFilePath b = Some file
           /\ data b = Some (cleanJson doc)
       end.
Proof.
  destruct h; cbn [steps_of input_of parse_of];
    [unfold xmlToJson_steps|unfold jsonToCsv_steps|unfold convert_steps];
    destruct (filename req) as [fname|]; try discriminate;
    match goal with
    | |- context [readFileSync ?r ?f] =>
        destruct (readFileSync r f) as [text|] eqn:Hr; try discriminate
    end;
    match goal with
    | |- context [parseStringPromise ?r ?x] =>
        destruct (parseStringPromise r x) as [doc|] eqn:Hp;
        try discriminate
    | |- context [JSON_parse ?r ?x] =>
        destruct (JSON_parse r x) as [doc|] eqn:Hp; try discriminate
    end;
    try match goal with
      | |- context [csv_of ?r ?d] =>
          destruct (csv_of r d) as [csv|]; try discriminate
      end;
    intros [= <- <- <-]; exists fname, text, doc; cbn; auto 8.
Qed.

(** X8. What a success carries: the path of the file that was written,
    under [jsonFilePath] for [xmlToJson] and under [csvFilePath] for the
    CSV handlers; and, for the two handlers that read XML, the cleaned
    document: [cleanJson] of what the parser made of the text read from
    the input file, which has no key ["$"] and no array of one element
    at any depth. For [xmlToJson] the file written holds the JSON text
    of that same value; [jsonToCsv] returns no data. *)
Theorem success_carries (h : handler) (rt : runtime) (req : request)
  (t : list event) (b : body) :
  run h rt req = (t, Ok (json b)) ->
  exists fname text doc file content,
    filename req = Some fname
    /\ readFileSync rt (input_of h rt fname) = Ok text
    /\ parse_of h rt text = Ok doc
    /\ In (EvWrite file content) t
    /\ match h with
       | XmlToJson => jsonFilePath b = Some file /\ csvFilePath b = None
       | _ => jsonFilePath b = None /\ csvFilePath b = Some file
       end
    /\ match h with
       | XmlToJson =>
           data b = Some (cleanJson doc)
           /\ content = JSON_stringify rt (cleanJson doc)
       | JsonToCsv => data b = None
       | XmlToCsv => data b = Some (cleanJson doc)
       end
    /\ has_marker (cleanJson doc) = false
    /\ has_singleton (cleanJson doc) = false
    /\ well_formed (cleanJson doc) = true.
Proof.
  intros Hrun. apply run_outcome in Hrun. inversion Hrun; subst.
  match goal with
  | Hs : steps_of _ _ _ = Some _ |- _ =>
      destruct (steps_shape _ _ _ Hs) as [fname' [text [doc Hshape]]]
  end.
  destruct Hshape as [Hf [Hr [Hp Hb]]].
  exists fname', text, doc, file, content.
  split; [exact Hf|]. split; [exact Hr|]. split; [exact Hp|].
  split; [apply in_or_app; right; simpl; auto|].
  assert (Hclean : has_marker (cleanJson doc) = false
                   /\ has_singleton (cleanJson doc) = false
                   /\ well_formed (cleanJson doc) = true).
  { split; [apply cleaned_marker_free|].
    split; [apply cleanJson_no_singleton|apply cleanJson_well_formed]. }
  destruct h.
  - destruct Hb as [Hj [Hc [Hd Hcontent]]]. auto.
  - destruct Hb as [Hj [Hc Hd]]. auto.
  - destruct Hb as [Hj [Hc Hd]]. auto.
Qed.

Lemma success_carries_witness :
  exists fname text doc file content,
    Some "batch.xml" = Some fname
    /\ readFileSync (sample_rt doc_clearing true)
         (input_of XmlToJson (sample_rt doc_clearing true) fname) = Ok text
    /\ parse_of XmlToJson (sample_rt doc_clearing true) text = Ok doc
    /\ In (EvWrite file content)
          [EvRead "/srv/api/controllers/../../templates/xml/batch.xml";
           EvWrite "/srv/api/controllers/../../templates/json/batch.json"
                   "<json>"]
    /\ (Some "/srv/api/controllers/../../templates/json/batch.json"
        = Some file /\ @None string = None)
    /\ (Some (cleanJson doc_clearing) = Some (cleanJson doc)
        /\ content = JSON_stringify (sample_rt doc_clearing true)
                       (cleanJson doc))
    /\ has_marker (cleanJson doc) = false
    /\ has_singleton (cleanJson doc) = false
    /\ well_formed (cleanJson doc) = true.
Proof.
  exact (@success_carries XmlToJson (sample_rt doc_clearing true)
           {| filename := Some "batch.xml"; jsonPath := None |}
           _ _ eq_refl).
Defined.

(** A run on strings throws only from [mkdirSync]. *)
Lemma outcome_throw_cause h rt req t msg :
  outcome h rt req t (Throw msg) ->
  h <> JsonToCsv
  /\ (exists fname, filename req = Some fname)
  /\ (exists dir, In dir (dirs_of h rt) /\ existsSync rt dir = false
                  /\ mkdirSync rt dir = Throw msg
                  /\ In (EvMkdir dir) t)
  /\ (forall e, In e t -> exists dir, e = EvMkdir dir).
Proof.
  intros Hrun. inversion Hrun; subst.
  match goal with
  | Hd : ensure_dirs _ _ = _ |- _ =>
      pose proof (ensure_dirs_events _ _ Hd) as [Hev Hthrow]
  end.
  destruct (Hthrow msg eq_refl) as [dir [Hin Hm]].
  rewrite Forall_forall in Hev.
  destruct (Hev _ Hin) as [d [Heq [Hd' He]]].
  injection Heq as <-.
  split; [|split; [|split]].
  - intros ->. destruct Hd'.
  - eauto.
  - exists dir. auto.
  - intros e Hine. destruct (Hev _ Hine) as [d' [-> _]]. eauto.
Qed.




(** X11. A log is written only for a 500: a run that logs an error
    answers 500 with the message logged, under the label of its
    handler. *)
Theorem log_means_server_error (h : handler) (rt : runtime) (req : request)
  (t : list event) (r : result response) (label msg : string) :
  run h rt req = (t, r) ->
  In (EvLog label msg) t ->
  label = label_of h /\ r = Ok (serverError (failure_of h) msg).
Proof.
  intros Hrun Hin. apply run_outcome in Hrun.
  assert (Hmk : forall t0 res, ensure_dirs rt (dirs_of h rt) = (t0, res) ->
                               ~ In (EvLog label msg) t0).
  { intros t0 res Hd Hl.
    destruct (@mkdir_only_not_in _ _ _ _ _ Hd Hl) as [d Hd'].
    discriminate Hd'. }
  inversion Hrun; subst;
    try (simpl in Hin; contradiction);
    try (exfalso; eapply Hmk; eassumption);
    (apply in_app_or in Hin; destruct Hin as [Hin|Hin];
     [exfalso; eapply Hmk; eassumption|]);
    simpl in Hin;
    repeat match goal with
           | H : _ \/ _ |- _ => destruct H
           | H : False |- _ => destruct H
           | H : EvRead _ = EvLog _ _ |- _ => discriminate H
           | H : EvWrite _ _ = EvLog _ _ |- _ => discriminate H
           | H : EvLog _ _ = EvLog _ _ |- _ => injection H as <- <-
           end;
    auto.
Qed.

Lemma log_means_server_error_witness :
  "Error during JSON to CSV conversion:" = label_of JsonToCsv
  /\ Ok (serverError "Failed to convert JSON to CSV."
                     "ENOENT: no such file or directory")
     = Ok (serverError (failure_of JsonToCsv)
                       "ENOENT: no such file or directory").
Proof.
  apply (@log_means_server_error JsonToCsv (sample_rt doc_table false)
           {| filename := Some "data.json"; jsonPath := None |}
           _ _ _ _ eq_refl).
  simpl. auto.
Defined.

Lemma reads_app t t' : reads (t ++ t') = reads t ++ reads t'.
Proof.
  induction t as [|ev t IH]; [reflexivity|].
  destruct ev; simpl; now rewrite IH.
Qed.

Lemma reads_dirs rt dirs t r :
  ensure_dirs rt dirs = (t, r) -> reads t = [].
Proof.
  intros Hd. apply ensure_dirs_events in Hd. destruct Hd as [Hev _].
  induction Hev as [|ev t [dir [-> _]] _ IH]; [reflexivity|exact IH].
Qed.

(** What a run on strings read: nothing, or its input file, found
    before; and how a run that read nothing ended. *)
Lemma outcome_reads h rt req t r :
  outcome h rt req t r ->
  (reads t = []
   \/ exists fname,
        filename req = Some fname
        /\ reads t = [input_of h rt fname]
        /\ existsSync rt (input_of h rt fname) = true)
  /\ (reads t = [] ->
      r = Ok (badRequest "Filename is required.")
      \/ r = Ok (notFound (missing_of h))
      \/ exists dir msg,
           In dir (dirs_of h rt) /\ existsSync rt dir = false
           /\ mkdirSync rt dir = Throw msg /\ r = Throw msg).
Proof.
  intros Hrun.
  assert (Hread : forall t0 res rest fname,
             ensure_dirs rt (dirs_of h rt) = (t0, res) ->
             reads (t0 ++ EvRead (input_of h rt fname) :: rest)
             = input_of h rt fname :: reads rest).
  { intros t0 res rest fname Hd.
    now rewrite reads_app, (reads_dirs _ _ Hd). }
  inversion Hrun; subst;
    try (split; [left; reflexivity|intros _; auto]);
    try (split; [left; eapply reads_dirs; eassumption|intros _]);
    try (erewrite Hread by eassumption; cbn [reads];
         split; [right; exists fname; auto|discriminate]).
  - right; right.
    match goal with
    | Hd : ensure_dirs _ _ = _ |- _ =>
        pose proof (ensure_dirs_events _ _ Hd) as [Hev Hthrow]
    end.
    destruct (Hthrow msg eq_refl) as [dir [Hin Hm]].
    rewrite Forall_forall in Hev.
    destruct (Hev _ Hin) as [d [Heq [Hd' He]]].
    injection Heq as <-. exists dir, msg. auto.
  - auto.
Qed.

(** ** Rows that cannot be made *)

(** X13. An array that cannot be turned into CSV is a 500 and leaves no
    file: when the value to convert of [jsonToCsv] or [convert] is an
    array holding [null], the handler answers 500 with the details
    ["Cannot convert undefined or null to object"]; when it holds none
    and the serializer rejects its rows, 500 with the message of the
    serializer. Either way the run read the input, logged the error and
    wrote nothing. *)
Theorem conversion_failure_is_500 (h : handler) (rt : runtime)
  (req : request) (fname text msg : string) (doc : value)
  (items : list value) (t0 : list event) :
  makes_csv h = true ->
  filename req = Some fname -> fname <> "" ->
  ensure_dirs rt (dirs_of h rt) = (t0, Ok tt) ->
  existsSync rt (input_of h rt fname) = true ->
  readFileSync rt (input_of h rt fname) = Ok text ->
  parse_of h rt text = Ok doc ->
  to_convert h rt (jsonPath req) doc = VArr items ->
  (In VNull items /\ msg = "Cannot convert undefined or null to object"
   \/ ~ In VNull items /\ json2csv rt (map row_of items) = Throw msg) ->
  run h rt req
  = (t0 ++ [EvRead (input_of h rt fname); EvLog (label_of h) msg],
     Ok (serverError (failure_of h) msg)).
Proof.
  intros Hcsv Hf Hne Hd He Hr Hp Hv Hfail.
  assert (Hrows : flatten_all items = Throw msg
                  \/ flatten_all items = Ok (map row_of items)
                     /\ json2csv rt (map row_of items) = Throw msg).
  { destruct (flatten_all_map items) as [Hok Hnull].
    destruct Hfail as [[Hin ->]|[Hno Hs]]; auto. }
  assert (Hsteps : steps_of h rt req = None).
  { destruct h; try discriminate Hcsv;
      cbn [steps_of input_of parse_of to_convert] in *;
      [unfold jsonToCsv_steps|unfold convert_steps];
      rewrite Hf, Hr, Hp, Hv; cbn [csv_of];
      destruct Hrows as [Hfl|[Hfl Hs]]; rewrite Hfl; try rewrite Hs;
      reflexivity. }
  destruct (run h rt req) as [t r] eqn:Hrun.
  settle Hrun;
    repeat match goal with
           | H : context [to_convert h rt (jsonPath req) _] |- _ =>
               rewrite Hv in H
           end;
    try discriminate;
    repeat match goal with
           | H : VArr _ = VArr _ |- _ => injection H as <-
           end;
    destruct Hrows as [Hfl|[Hfl Hs]]; pin; try discriminate; reflexivity.
Qed.

Lemma conversion_failure_is_500_witness :
  run XmlToCsv
    (sample_rt (VObj [("clearing", VObj [("operation",
                                          VArr [VObj [("a", VNum one)];
                                                VNull])])])
       true)
    {| filename := Some "batch.xml"; jsonPath := None |}
  = ([EvRead "/srv/api/controllers/../../uploads/batch.xml";
      EvLog "Error during conversion:"
            "Cannot convert undefined or null to object"],
     Ok (serverError "Failed to convert XML to JSON/CSV."
                     "Cannot convert undefined or null to object")).
Proof.
  refine (@conversion_failure_is_500 XmlToCsv
            (sample_rt (VObj [("clearing",
                               VObj [("operation",
                                      VArr [VObj [("a", VNum one)];
                                            VNull])])])
               true)
            {| filename := Some "batch.xml"; jsonPath := None |}
            "batch.xml" "<document>"
            "Cannot convert undefined or null to object"
            (VObj [("clearing", VObj [("operation",
                                       VArr [VObj [("a", VNum one)];
                                             VNull])])])
            [VObj [("a", VNum one)]; VNull] []
            eq_refl eq_refl _ eq_refl eq_refl eq_refl eq_refl eq_refl _).
  - discriminate.
  - left. split; [|reflexivity]. simpl. auto.
Defined.

(** X14. [xmlToJson] never looks at the [jsonPath] of its request: two
    requests with the same filename run alike, in effects and answer. *)
Theorem xmlToJson_ignores_path (rt : runtime) (req req' : request) :
  filename req = filename req' ->
  xmlToJson rt req = xmlToJson rt req'.
Proof.
  intros Hf. unfold xmlToJson. rewrite Hf. reflexivity.
Qed.

Lemma xmlToJson_ignores_path_witness :
  xmlToJson (sample_rt doc_clearing true)
    {| filename := Some "batch.xml"; jsonPath := Some "clearing" |}
  = xmlToJson (sample_rt doc_clearing true)
      {| filename := Some "batch.xml"; jsonPath := None |}.
Proof.
  apply xmlToJson_ignores_path. reflexivity.
Defined.

(** ** The cleaner, away from the key [__proto__] *)

(** X15. On a value as a parser builds it, with no key [__proto__],
    [cleanJson] is the cleaner of the specification: it drops the
    entries under ["$"], takes the element of an array of one for the
    array, and changes nothing else, keeping the entries in their
    order. *)
Theorem cleanJson_refines_spec (v : value) :
  well_formed v = true ->
  has_key_deep "__proto__" v = false ->
  cleanJson v = clean_spec v.
Proof. exact (@cleanJson_clean_spec v). Qed.

Lemma cleanJson_refines_spec_witness :
  cleanJson doc_clearing = clean_spec doc_clearing.
Proof.
  apply cleanJson_refines_spec; reflexivity.
Defined.

(** X16. What [cleanJson] returns, whatever it is given: a value whose
    objects have distinct keys in the order JavaScript lists them, with
    no array of one element at any depth; and with no key [__proto__]
    when the value cleaned was well formed. *)
Theorem cleanJson_output_shape (v : value) :
  well_formed (cleanJson v) = true
  /\ has_singleton (cleanJson v) = false
  /\ (well_formed v = true ->
      has_key_deep "__proto__" (cleanJson v) = false).
Proof.
  split; [apply cleanJson_well_formed|].
  split; [apply cleanJson_no_singleton|apply cleanJson_no_proto_key].
Qed.

(** X17. Cleaning twice is cleaning once, on every well-formed value:
    the handlers may clean a document that was cleaned before. *)
Theorem cleaning_twice (v : value) :
  well_formed v = true ->
  cleanJson (cleanJson v) = cleanJson v.
Proof. exact (@cleanJson_idempotent v). Qed.

Lemma cleaning_twice_witness :
  cleanJson (cleanJson doc_proto) = cleanJson doc_proto.
Proof.
  apply cleaning_twice. reflexivity.
Defined.

(** X18. A well-formed value with no key ["$"], no key [__proto__] and
    no array of one element is returned as it is. *)
Theorem clean_value_unchanged (v : value) :
  well_formed v = true ->
  has_key_deep "__proto__" v = false ->
  has_marker v = false ->
  has_singleton v = false ->
  cleanJson v = v.
Proof. exact (@cleanJson_fixed v). Qed.

Lemma clean_value_unchanged_witness :
  cleanJson doc_abc = doc_abc.
Proof.
  apply clean_value_unchanged; reflexivity.
Defined.

(** X19. The cleaner invents no entry: every entry of a cleaned object
    stands under a key of the object cleaned, other than ["$"], and its
    value is the cleaned value of an entry under that key. *)
Theorem cleaned_entries_origin (entries cleaned : object) (k : string)
  (v' : value) :
  cleanJson (VObj entries) = VObj cleaned ->
  In (k, v') cleaned ->
  k <> "$" /\ exists v, In (k, v) entries /\ v' = cleanJson v.
Proof.
  rewrite cleanJson_object. intros [= <-].
  assert (H : forall kv,
             In kv (own (fold_left (clean_step cleanJson) entries fresh)) ->
             fst kv <> "$"
             /\ exists v, In (fst kv, v) entries
                          /\ snd kv = cleanJson v).
  { apply fold_left_invariant
      with (P := fun acc : literal =>
                   forall kv, In kv (own acc) ->
                              fst kv <> "$"
                              /\ exists v, In (fst kv, v) entries
                                           /\ snd kv = cleanJson v)
           (Q := fun e : string * value => In e entries).
    - intros acc [key x] Hacc He kv. unfold clean_step. simpl.
      destruct (key =? "$") eqn:E; [apply Hacc|].
      intros Hin. apply in_assign in Hin. destruct Hin as [->|Hin].
      + simpl. split; [now apply String.eqb_neq|]. exists x. auto.
      + now apply Hacc.
    - intros kv [].
    - apply Forall_forall. auto. }
  intros Hin. exact (H (k, v') Hin).
Qed.

Lemma cleaned_entries_origin_witness :
  "a" <> "$"
  /\ exists v, In ("a", v) [("$", VObj [("id", VStr "7")]);
                            ("a", VArr [VStr "x"])]
               /\ VStr "x" = cleanJson v.
Proof.
  apply (@cleaned_entries_origin
           [("$", VObj [("id", VStr "7")]); ("a", VArr [VStr "x"])]
           [("a", VStr "x")] "a" (VStr "x") eq_refl).
  simpl. auto.
Defined.

(** ** The rows of the flattener *)

Lemma append_empty (s : string) : (s ++ "")%string = s.
Proof. induction s as [|c s IH]; simpl; [reflexivity|now rewrite IH]. Qed.

Lemma append_assoc (a b c : string) :
  ((a ++ b) ++ c)%string = (a ++ (b ++ c))%string.
Proof. induction a as [|x a IH]; simpl; [reflexivity|now rewrite IH]. Qed.

Lemma join_key_prefix parentKey key :
  exists rest, join_key parentKey key = (parentKey ++ rest)%string.
Proof.
  unfold join_key. destruct (parentKey =? "") eqn:E.
  - apply String.eqb_eq in E. subst. now exists key.
  - now exists ("/" ++ key)%string.
Qed.

Lemma leaf_paths_prefix v :
  forall parentKey key kv,
    In kv (leaf_paths parentKey key v) ->
    exists rest, fst kv = (join_key parentKey key ++ rest)%string.
Proof.
  induction v as [| | | |l IH|m IH|] using value_ind;
    intros parentKey key kv; simpl;
    try (intros [<-|[]]; exists ""; simpl; now rewrite append_empty).
  intros Hin. apply in_flat_map in Hin. destruct Hin as [e [He Hin]].
  rewrite Forall_forall in IH.
  destruct (IH e He _ _ _ Hin) as [rest Hrest].
  destruct (join_key_prefix (join_key parentKey key) (fst e)) as [r Hr].
  exists (r ++ rest)%string. now rewrite Hrest, Hr, append_assoc.
Qed.

(** A loop that adds, for each entry, entries among those [g] lists
    adds only entries among those [g] lists for all. *)
Lemma fold_sound (f : literal -> string * value -> literal)
  (g : string * value -> list (string * value)) (m : object) :
  Forall (fun e => forall r kv, In kv (own (f r e)) ->
                                In kv (own r) \/ In kv (g e)) m ->
  forall r kv, In kv (own (fold_left f m r)) ->
               In kv (own r) \/ In kv (flat_map g m).
Proof.
  induction 1 as [|e m He _ IH]; intros r kv; simpl; [auto|].
  intros Hin. destruct (IH _ _ Hin) as [Hr|Hm].
  - destruct (He _ _ Hr) as [Hr'|Hg]; [auto|].
    right. apply in_or_app. auto.
  - right. apply in_or_app. auto.
Qed.

Lemma flatten_entry_sound v :
  forall parentKey key result kv,
    In kv (own (flatten_entry parentKey key v result)) ->
    In kv (own result) \/ In kv (leaf_paths parentKey key v).
Proof.
  induction v as [| | | |l IH|m IH|] using value_ind;
    intros parentKey key result kv; simpl;
    try (intros Hin; apply in_assign in Hin;
         destruct Hin as [->|Hin]; auto).
  apply (@fold_sound
           (fun result kv =>
              flatten_entry (join_key parentKey key) (fst kv) (snd kv)
                result)
           (fun kv => leaf_paths (join_key parentKey key) (fst kv) (snd kv))).
  revert IH. apply Forall_impl. intros e He r kv'. apply He.
Qed.

Lemma flattenJson_sound data parentKey kv :
  In kv (own (flattenJson data parentKey fresh)) ->
  In kv (leaf_paths_of data parentKey).
Proof.
  intros Hin. unfold flattenJson in Hin.
  apply (@fold_sound
           (fun result kv =>
              flatten_entry parentKey (fst kv) (snd kv) result)
           (fun kv => leaf_paths parentKey (fst kv) (snd kv))) in Hin.
  - destruct Hin as [[]|Hin]. exact Hin.
  - apply Forall_forall. intros e _ r kv'. apply flatten_entry_sound.
Qed.

(** X20. The flattener invents nothing: every entry of a row is a leaf
    of the element, a value that is not a plain object, under the key
    that joins with ["/"] the keys on the way to it; so its key begins
    with the key of an entry of the element, after the parent key if
    there is one. *)
Theorem flattened_from_leaves (data : object) (parentKey k : string)
  (v : value) :
  In (k, v) (own (flattenJson data parentKey fresh)) ->
  In (k, v) (leaf_paths_of data parentKey)
  /\ exists key x rest,
       In (key, x) data
       /\ k = (join_key parentKey key ++ rest)%string.
Proof.
  intros Hin. apply flattenJson_sound in Hin. split; [exact Hin|].
  unfold leaf_paths_of in Hin. apply in_flat_map in Hin.
  destruct Hin as [[key x] [He Hin]]. simpl in Hin.
  apply leaf_paths_prefix in Hin. destruct Hin as [rest Hrest].
  exists key, x, rest. auto.
Qed.

Lemma flattened_from_leaves_witness :
  In ("p/a/b", VNum one)
     (leaf_paths_of [("a", VObj [("b", VNum one)]); ("c", VNull)] "p")
  /\ exists key x rest,
       In (key, x) [("a", VObj [("b", VNum one)]); ("c", VNull)]
       /\ "p/a/b" = (join_key "p" key ++ rest)%string.
Proof.
  apply (@flattened_from_leaves
           [("a", VObj [("b", VNum one)]); ("c", VNull)] "p" "p/a/b"
           (VNum one)).
  simpl. auto.
Defined.

(** *** The value a row holds under a key *)

Lemma lookup_none key o : has_key key o = false -> lookup key o = None.
Proof.
  unfold has_key. induction o as [|[k x] o IH]; simpl; [reflexivity|].
  intros H. apply orb_false_elim in H. destruct H as [Hk Ho].
  rewrite Hk. auto.
Qed.

Lemma lookup_app key o o' :
  lookup key (o ++ o')
  = match lookup key o with
    | Some x => Some x
    | None => lookup key o'
    end.
Proof.
  induction o as [|[k x] o IH]; simpl; [reflexivity|].
  destruct (k =? key); [reflexivity|exact IH].
Qed.

Lemma lookup_replace key v o k :
  has_key key o = true ->
  lookup k (replace key v o)
  = if key =? k then Some v else lookup k o.
Proof.
  unfold has_key. induction o as [|[k0 x] o IH]; simpl; [discriminate|].
  destruct (k0 =? key) eqn:E0; simpl.
  - intros _. apply String.eqb_eq in E0. subst k0.
    destruct (key =? k); reflexivity.
  - intros Ho. rewrite (IH Ho).
    destruct (k0 =? k) eqn:E1; [|reflexivity].
    apply String.eqb_eq in E1. subst k0. now rewrite String.eqb_sym, E0.
Qed.

Lemma lookup_insert_index n key v o k :
  has_key key o = false ->
  lookup k (insert_index n key v o)
  = if key =? k then Some v else lookup k o.
Proof.
  unfold has_key. induction o as [|[k0 x] o IH]; simpl; [reflexivity|].
  intros H. apply orb_false_elim in H. destruct H as [E0 Ho].
  assert (Hhead : (if k0 =? k then Some x
                   else if key =? k then Some v else lookup k o)
                  = if key =? k then Some v
                    else if k0 =? k then Some x else lookup k o).
  { destruct (k0 =? k) eqn:E1, (key =? k) eqn:E2; try reflexivity.
    apply String.eqb_eq in E1, E2. subst.
    rewrite String.eqb_refl in E0. discriminate. }
  destruct (array_index k0) as [m|]; [destruct (m <? n)%N|]; simpl;
    try reflexivity.
  rewrite (IH Ho). exact Hhead.
Qed.

Lemma lookup_put key v o k :
  lookup k (put key v o) = if key =? k then Some v else lookup k o.
Proof.
  unfold put. destruct (has_key key o) eqn:Hk.
  - now apply lookup_replace.
  - destruct (array_index key) as [n|].
    + now apply lookup_insert_index.
    + rewrite lookup_app. simpl.
      destruct (key =? k) eqn:E.
      * apply String.eqb_eq in E. subst. now rewrite (lookup_none _ _ Hk).
      * now destruct (lookup k o).
Qed.

Lemma lookup_assign key v o k :
  k <> "__proto__" ->
  lookup k (own (assign key v o))
  = if key =? k then Some v else lookup k (own o).
Proof.
  intros Hk. unfold assign.
  destruct (negb (has_key key (own o)) && negb (bare o)
            && (key =? "__proto__")) eqn:E; simpl.
  - apply andb_prop in E. destruct E as [_ E].
    apply String.eqb_eq in E. subst key.
    destruct ("__proto__" =? k) eqn:E'; [|reflexivity].
    apply String.eqb_eq in E'. now destruct Hk.
  - apply lookup_put.
Qed.

(** A loop whose step for an entry lets the last of the entries [g]
    lists under a key decide, lets the last of all decide. *)
Lemma fold_lookup (f : literal -> string * value -> literal)
  (g : string * value -> list (string * value)) (k : string)
  (m : object) :
  Forall (fun e => forall r,
              lookup k (own (f r e))
              = match lookup k (rev (g e)) with
                | Some x => Some x
                | None => lookup k (own r)
                end) m ->
  forall r,
    lookup k (own (fold_left f m r))
    = match lookup k (rev (flat_map g m)) with
      | Some x => Some x
      | None => lookup k (own r)
      end.
Proof.
  induction 1 as [|e m He _ IH]; intros r; simpl; [reflexivity|].
  rewrite IH, rev_app_distr, lookup_app, He.
  now destruct (lookup k (rev (flat_map g m))).
Qed.

Lemma flatten_entry_lookup v (k : string) :
  k <> "__proto__" ->
  forall parentKey key result,
    lookup k (own (flatten_entry parentKey key v result))
    = match lookup k (rev (leaf_paths parentKey key v)) with
      | Some x => Some x
      | None => lookup k (own result)
      end.
Proof.
  intros Hk.
  induction v as [| | | |l IH|m IH|] using value_ind;
    intros parentKey key result; simpl;
    try (rewrite lookup_assign by exact Hk;
         now destruct (join_key parentKey key =? k)).
  apply (@fold_lookup
           (fun result kv =>
              flatten_entry (join_key parentKey key) (fst kv) (snd kv)
                result)
           (fun kv => leaf_paths (join_key parentKey key) (fst kv) (snd kv))).
  revert IH. apply Forall_impl. intros e He r. apply He.
Qed.

(** C5, as the code has it. No value of a flattened row is a plain
    object: every value bound to a flattened key is a scalar, [null] or
    an array, and it is kept as it is. Each entry of the row is a leaf
    of the data under its joined key, the very value the data has
    there; and under every key but [__proto__] the row holds the last
    leaf with that key, so that an array of the data stands in the row
    unchanged, neither flattened nor replaced. *)
Theorem flattenJson_no_object (data : object) (parentKey : string) :
  Forall (fun kv => isPlainObject (snd kv) = false)
         (own (flattenJson data parentKey fresh))
  /\ (forall k v,
         In (k, v) (own (flattenJson data parentKey fresh)) ->
         In (k, v) (leaf_paths_of data parentKey))
  /\ (forall k,
         k <> "__proto__" ->
         lookup k (own (flattenJson data parentKey fresh))
         = lookup k (rev (leaf_paths_of data parentKey)))
  /\ (forall k elems,
         k <> "__proto__" ->
         lookup k (rev (leaf_paths_of data parentKey)) = Some (VArr elems) ->
         lookup k (own (flattenJson data parentKey fresh))
         = Some (VArr elems)).
Proof.
  assert (Hlast : forall k,
             k <> "__proto__" ->
             lookup k (own (flattenJson data parentKey fresh))
             = lookup k (rev (leaf_paths_of data parentKey))).
  { intros k Hk. unfold flattenJson, leaf_paths_of.
    rewrite (@fold_lookup
               (fun result kv =>
                  flatten_entry parentKey (fst kv) (snd kv) result)
               (fun kv => leaf_paths parentKey (fst kv) (snd kv)) k).
    - simpl. now destruct (lookup k (rev _)).
    - apply Forall_forall. intros e _ r. now apply flatten_entry_lookup. }
  split; [apply flattened_no_object|].
  split; [intros k v; apply flattenJson_sound|].
  split; [exact Hlast|].
  intros k elems Hk Hleaf. now rewrite Hlast.
Qed.

(** X21. The value of a row under a key: of the leaves of the element
    whose keys, joined with ["/"], give the same flattened key, the last
    one the loop meets is the one the row holds; a key no leaf gives is
    not in the row. This holds for every key but [__proto__]. *)
Theorem flattened_last_wins (data : object) (parentKey k : string) :
  k <> "__proto__" ->
  lookup k (own (flattenJson data parentKey fresh))
  = lookup k (rev (leaf_paths_of data parentKey)).
Proof.
  intros Hk. unfold flattenJson, leaf_paths_of.
  rewrite (@fold_lookup
             (fun result kv =>
                flatten_entry parentKey (fst kv) (snd kv) result)
             (fun kv => leaf_paths parentKey (fst kv) (snd kv)) k).
  - simpl. now destruct (lookup k (rev _)).
  - apply Forall_forall. intros e _ r. now apply flatten_entry_lookup.
Qed.

Lemma flattened_last_wins_witness :
  lookup "a/b"
    (own (flattenJson [("a/b", VNum one); ("a", VObj [("b", VNum two)])]
            "" fresh))
  = lookup "a/b"
      (rev (leaf_paths_of
              [("a/b", VNum one); ("a", VObj [("b", VNum two)])] "")).
Proof.
  apply flattened_last_wins. discriminate.
Defined.

(** *** Rows of flat elements *)

Lemma flatten_entry_leaf key v result :
  isPlainObject v = false ->
  key <> "__proto__" ->
  flatten_entry "" key v result
  = {| bare := bare result; own := put key v (own result) |}.
Proof.
  intros Hv Hk. destruct v; try discriminate Hv; simpl;
    unfold join_key; simpl; now apply assign_put.
Qed.

Lemma flat_fold (entries : object) :
  forall acc,
    wf_keys (keys acc ++ keys entries) = true ->
    Forall (fun k => k <> "__proto__") (keys entries) ->
    Forall (fun kv => isPlainObject (snd kv) = false) entries ->
    flattenJson entries "" {| bare := false; own := acc |}
    = {| bare := false; own := acc ++ entries |}.
Proof.
  unfold flattenJson.
  induction entries as [|[k x] entries IH]; intros acc Hwf Hp Hflat; simpl.
  - now rewrite app_nil_r.
  - inversion Hp as [|? ? Hk Hp']; subst.
    inversion Hflat as [|? ? Hx Hflat']; subst. simpl in Hx.
    simpl in Hwf.
    apply wf_keys_app in Hwf. destruct Hwf as [Ha [Hke Hcross]].
    simpl in Hke. apply andb_prop in Hke. destruct Hke as [Hk1 Hk2].
    rewrite flatten_entry_leaf by assumption. simpl.
    rewrite put_end.
    2:{ revert Hcross. apply Forall_impl. intros a Ha'.
        now inversion Ha'. }
    rewrite IH; [now rewrite <- app_assoc| |exact Hp'|exact Hflat'].
    rewrite keys_app. simpl. rewrite <- app_assoc. simpl.
    apply wf_keys_app. split; [exact Ha|]. split.
    + simpl. now rewrite Hk1, Hk2.
    + exact Hcross.
Qed.

(** X22. A flat element is its own row: when no value of the element is
    a plain object, its keys are distinct and in the order JavaScript
    lists them, and none is [__proto__], [flattenJson] returns the
    entries of the element as they are, in their order. *)
Theorem flat_row_unchanged (entries : object) :
  wf_keys (keys entries) = true ->
  Forall (fun k => k <> "__proto__") (keys entries) ->
  Forall (fun kv => isPlainObject (snd kv) = false) entries ->
  own (flattenJson entries "" fresh) = entries.
Proof.
  intros Hwf Hp Hflat. unfold fresh.
  now rewrite flat_fold.
Qed.

Lemma flat_row_unchanged_witness :
  own (flattenJson
         [("0", VStr "zero"); ("id", VNum one);
          ("tags", VArr [VStr "x"; VStr "y"]); ("note", VNull)]
         "" fresh)
  = [("0", VStr "zero"); ("id", VNum one);
     ("tags", VArr [VStr "x"; VStr "y"]); ("note", VNull)].
Proof.
  apply flat_row_unchanged.
  - reflexivity.
  - repeat constructor; discriminate.
  - repeat constructor.
Defined.

(** X23. Away from the key [__proto__], [flattenJson] from a new object
    is the flattener of the specification: each leaf is written as an
    own property under its joined key, a written key keeping its place
    and a new one taking its place in the order of the keys. *)
Theorem flatten_refines_spec (data : object) (parentKey : string) :
  has_key_deep "__proto__" (VObj data) = false ->
  own (flattenJson data parentKey fresh) = flatten_spec data parentKey.
Proof. exact (@flattenJson_flatten_spec data parentKey). Qed.

Lemma flatten_refines_spec_witness :
  own (flattenJson [("a", VObj [("b", VObj [("c", VNum one)])]);
                    ("1", VStr "x")] "" fresh)
  = flatten_spec [("a", VObj [("b", VObj [("c", VNum one)])]);
                  ("1", VStr "x")] "".
Proof.
  apply flatten_refines_spec. reflexivity.
Defined.

(** ** Paths and their segments *)

Lemma split_dot_not_nil (s : string) : split_dot s <> [].
Proof.
  destruct s as [|c s]; simpl; [discriminate|].
  destruct (c =? ".")%char; [discriminate|].
  destruct (split_dot s); discriminate.
Qed.

Lemma split_dot_concat (s : string) : String.concat "." (split_dot s) = s.
Proof.
  induction s as [|c s IH]; [reflexivity|]. cbn [split_dot].
  destruct (c =? ".")%char eqn:E.
  - apply Ascii.eqb_eq in E. subst c.
    pose proof (split_dot_not_nil s) as Hne.
    destruct (split_dot s) as [|seg rest]; [now destruct Hne|].
    change (String.concat "." ("" :: seg :: rest))
      with ("" ++ "." ++ String.concat "." (seg :: rest))%string.
    rewrite IH. reflexivity.
  - pose proof (split_dot_not_nil s) as Hne.
    destruct (split_dot s) as [|seg rest]; [now destruct Hne|].
    destruct rest as [|seg' rest].
    + simpl in *. now rewrite IH.
    + change (String.concat "." (String c seg :: seg' :: rest))
        with (String c seg ++ "." ++ String.concat "." (seg' :: rest))%string.
      change (String.concat "." (seg :: seg' :: rest))
        with (seg ++ "." ++ String.concat "." (seg' :: rest))%string in IH.
      rewrite <- IH. reflexivity.
Qed.

Lemma split_dot_segments (s : string) :
  Forall (fun seg => has_dot seg = false) (split_dot s).
Proof.
  induction s as [|c s IH]; cbn [split_dot].
  - repeat constructor.
  - destruct (c =? ".")%char eqn:E.
    + constructor; [reflexivity|exact IH].
    + destruct (split_dot s) as [|seg rest]; [repeat constructor|].
      * unfold has_dot. cbn [list_ascii_of_string existsb].
        rewrite Ascii.eqb_sym, E. reflexivity.
      * inversion IH as [|? ? Hseg Hrest]; subst.
        constructor; [|exact Hrest].
        unfold has_dot in *. cbn [list_ascii_of_string existsb].
        rewrite Ascii.eqb_sym, E. exact Hseg.
Qed.

Lemma split_dot_app (a b : string) :
  split_dot (a ++ "." ++ b) = split_dot a ++ split_dot b.
Proof.
  induction a as [|c a IH]; [reflexivity|].
  change (String c a ++ "." ++ b)%string
    with (String c (a ++ "." ++ b))%string.
  cbn [split_dot]. rewrite IH.
  destruct (c =? ".")%char; [reflexivity|].
  pose proof (split_dot_not_nil a) as Hne.
  destruct (split_dot a) as [|seg rest]; [now destruct Hne|reflexivity].
Qed.

Lemma split_dot_of_concat (segs : list string) :
  segs <> [] ->
  Forall (fun seg => has_dot seg = false) segs ->
  split_dot (String.concat "." segs) = segs.
Proof.
  induction segs as [|seg segs IH]; intros Hne Hall; [now destruct Hne|].
  inversion Hall as [|? ? Hseg Hrest]; subst.
  destruct segs as [|seg' segs].
  - simpl. now apply split_dot_segment.
  - change (String.concat "." (seg :: seg' :: segs))
      with (seg ++ "." ++ String.concat "." (seg' :: segs))%string.
    rewrite split_dot_app, split_dot_segment by exact Hseg.
    rewrite IH; [reflexivity|discriminate|exact Hrest].
Qed.

(** X24. The segments of a path: [jsonPath.split(".")] gives at least
    one segment, none holds a dot, and joined by dots they give the path
    back; and they are the only such list. So the empty path has the one
    segment [""], and a path of [n] dots has [n + 1] segments. *)
Theorem split_dot_round_trip (jsonPath : string) :
  split_dot jsonPath <> []
  /\ Forall (fun seg => has_dot seg = false) (split_dot jsonPath)
  /\ String.concat "." (split_dot jsonPath) = jsonPath
  /\ (forall segments,
         segments <> [] ->
         Forall (fun seg => has_dot seg = false) segments ->
         String.concat "." segments = jsonPath ->
         split_dot jsonPath = segments).
Proof.
  split; [apply split_dot_not_nil|].
  split; [apply split_dot_segments|].
  split; [apply split_dot_concat|].
  intros segments Hne Hall <-. now apply split_dot_of_concat.
Qed.

Lemma fold_select_step_falsy rt segments :
  forall acc,
    truthy acc = false ->
    truthy (fold_left (select_step rt) segments acc) = false.
Proof.
  induction segments as [|key segments IH]; intros acc Hacc; simpl.
  - exact Hacc.
  - apply IH. unfold select_step. now rewrite Hacc.
Qed.

(** X25. Selection composes: selecting by [p.q] is selecting by [p]
    and then, from what was found, by [q]; and it is absent as soon as
    the selection by [p] is. *)
Theorem select_composes (rt : runtime) (root : value) (p q : string) :
  select rt root (p ++ "." ++ q)
  = and_then (select rt root p) (fun found => select rt found q).
Proof.
  unfold select, select_reduce.
  rewrite split_dot_app, fold_left_app.
  destruct (truthy (fold_left (select_step rt) (split_dot p) root))
    eqn:Hp; cbn [and_then].
  - reflexivity.
  - now rewrite fold_select_step_falsy.
Qed.

(** ** The combined handler, whatever the path *)

(** X26. A success of [convert]: the uploads and exports directories
    are made where they are missing; the file is read and parsed, the
    document cleaned, and the value selected from it, by the path given
    or by ["clearing.operation"], is an array without [null]; its rows
    go to the serializer, the CSV text is written to the exports
    directory under the stem of the input, and the answer carries that
    path and the whole cleaned document. *)
Theorem convert_succeeds_at (rt : runtime) (fname : string)
  (p : option string) (text : string) (doc : value)
  (items : list value) (csv : string) (t0 : list event) :
  fname <> "" ->
  ensure_dirs rt [uploads_dir rt; exports_dir rt] = (t0, Ok tt) ->
  existsSync rt (uploads_file rt fname) = true ->
  readFileSync rt (uploads_file rt fname) = Ok text ->
  parseStringPromise rt text = Ok doc ->
  select_reduce rt (cleanJson doc) (path_or_default p) = VArr items ->
  ~ In VNull items ->
  json2csv rt (map row_of items) = Ok csv ->
  writeFileSync rt (exports_csv_output rt fname) csv = Ok tt ->
  convert rt {| filename := Some fname; jsonPath := p |}
  = (t0 ++ [EvRead (uploads_file rt fname);
            EvWrite (exports_csv_output rt fname) csv],
     Ok (json {| message := "XML successfully converted to JSON and CSV.";
                 jsonFilePath := None;
                 data := Some (cleanJson doc);
                 csvFilePath := Some (exports_csv_output rt fname) |})).
Proof.
  intros Hne Hd He Hr Hp Hs Hno Hc Hw.
  apply (@run_succeeds XmlToCsv rt
           {| filename := Some fname; jsonPath := p |} fname t0);
    auto.
  cbn [steps_of]. unfold convert_steps. cbn [filename jsonPath].
  rewrite Hr, Hp, Hs. unfold csv_of.
  rewrite (proj1 (flatten_all_map items) Hno). now rewrite Hc.
Qed.

Lemma convert_succeeds_at_witness :
  convert
    (rt_with (has_suffix ".xml") (Ok tt) (Ok "<document>")
       (Ok doc_clearing) (Ok "<csv>") (Ok tt))
    {| filename := Some "batch.xml"; jsonPath := Some "clearing.operation" |}
  = ([EvMkdir "/srv/api/controllers/../../uploads";
      EvMkdir "/srv/api/controllers/../../exports";
      EvRead "/srv/api/controllers/../../uploads/batch.xml";
      EvWrite "/srv/api/controllers/../../exports/batch.csv" "<csv>"],
     Ok (json {| message := "XML successfully converted to JSON and CSV.";
                 jsonFilePath := None;
                 data := Some (cleanJson doc_clearing);
                 csvFilePath :=
                   Some "/srv/api/controllers/../../exports/batch.csv" |})).
Proof.
  refine (@convert_succeeds_at
            (rt_with (has_suffix ".xml") (Ok tt) (Ok "<document>")
               (Ok doc_clearing) (Ok "<csv>") (Ok tt))
            "batch.xml" (Some "clearing.operation") "<document>"
            doc_clearing
            [VObj [("id", VStr "1");
                   ("amount", VObj [("value", VStr "10");
                                    ("currency", VStr "EUR")])];
             VObj [("id", VStr "2")]]
            "<csv>"
            [EvMkdir "/srv/api/controllers/../../uploads";
             EvMkdir "/srv/api/controllers/../../exports"]
            _ eq_refl eq_refl eq_refl eq_refl eq_refl _ eq_refl eq_refl).
  - discriminate.
  - intros [H|[H|[]]]; discriminate H.
Defined.

(** ** One record is no array *)

Lemma lookup_in key o x : lookup key o = Some x -> In (key, x) o.
Proof.
  induction o as [|[k y] o IH]; simpl; [discriminate|].
  destruct (k =? key) eqn:E.
  - apply String.eqb_eq in E. subst k. intros [= ->]. now left.
  - intros H. right. auto.
Qed.

Lemma own_prop_no_singleton v key x :
  has_singleton v = false ->
  own_prop v key = Some x ->
  has_singleton x = false.
Proof.
  destruct v as [| | | |elems|entries|]; simpl; try discriminate.
  - intros H. apply orb_false_elim in H. destruct H as [_ H].
    rewrite existsb_false, Forall_forall in H.
    destruct (array_index key) as [i|]; [|discriminate].
    intros Hn. apply nth_error_In in Hn. auto.
  - intros H. rewrite existsb_false, Forall_forall in H.
    intros Hl. apply lookup_in in Hl. exact (H _ Hl).
Qed.

Lemma select_reduce_no_singleton rt segments :
  (forall v key y, inherited rt v key = Some y ->
                   has_singleton y = false) ->
  forall acc,
    has_singleton acc = false ->
    has_singleton (fold_left (select_step rt) segments acc) = false.
Proof.
  intros Hrt.
  induction segments as [|key segments IH]; intros acc Hacc; simpl.
  - exact Hacc.
  - apply IH. unfold select_step, get_prop.
    destruct (truthy acc); [|reflexivity].
    destruct (own_prop acc key) as [x|] eqn:Ho.
    + destruct (truthy x); [|reflexivity].
      exact (own_prop_no_singleton _ _ Hacc Ho).
    + destruct (inherited rt acc key) as [y|] eqn:Hi; [|reflexivity].
      destruct (truthy y); [|reflexivity].
      exact (Hrt _ _ _ Hi).
Qed.

(** X27. [convert] never has an array of one element to convert:
    [cleanJson] has put the element in the place of every such array,
    so what the path selects from the cleaned document is never one,
    provided the properties the runtime supplies (lengths, methods) hold
    none. *)
Theorem convert_never_one_row (rt : runtime) (doc : value)
  (jsonPath : string) (item : value) :
  (forall v key y, inherited rt v key = Some y ->
                   has_singleton y = false) ->
  select_reduce rt (cleanJson doc) jsonPath <> VArr [item].
Proof.
  intros Hrt Hsel.
  pose proof (@select_reduce_no_singleton rt (split_dot jsonPath) Hrt
                (cleanJson doc) (cleanJson_no_singleton doc)) as H.
  unfold select_reduce in Hsel. rewrite Hsel in H. discriminate H.
Qed.

Lemma convert_never_one_row_witness :
  select_reduce (sample_rt doc_rows_table true) (cleanJson doc_rows_table)
    "rows"
  <> VArr [VObj [("a", VNum one); ("b", VObj [("c", VNum two)])]].
Proof.
  apply convert_never_one_row. discriminate.
Defined.

(** * Requests of any shape *)

Lemma bind_pure_ok (A B : Type) (a : A) (k : A -> io B) :
  bind (pure (Ok a)) k = k a.
Proof. unfold bind, pure, call. now destruct (k a). Qed.

Lemma bind_ext (A B : Type) (m : io A) (k k' : A -> io B) :
  (forall a, k a = k' a) -> bind m k = bind m k'.
Proof.
  intros H. unfold bind. destruct m as [t [a|msg]]; [|reflexivity].
  now rewrite H.
Qed.

Lemma falsy_as_string (x : option string) :
  AnyBody.falsy (option_map VStr x) = falsy_string x.
Proof.
  destruct x as [s|]; [|reflexivity]. simpl. apply negb_involutive.
Qed.

(** On a request whose fields are strings the handlers on every body are
    the handlers on requests. *)
Lemma as_body_run e rt h req :
  AnyBody.run e rt h (as_body req) = run h rt req.
Proof.
  destruct h; cbn [AnyBody.run run];
    [unfold AnyBody.xmlToJson, xmlToJson
    |unfold AnyBody.jsonToCsv, jsonToCsv
    |unfold AnyBody.convert, convert];
    unfold as_body; cbn [AnyBody.filename AnyBody.jsonPath];
    rewrite falsy_as_string;
    destruct (falsy_string (filename req)) eqn:Hf; try reflexivity;
    (destruct (filename req) as [fname|]; [|discriminate Hf]);
    cbn [option_map AnyBody.path_argument render];
    rewrite bind_pure_ok.
  - reflexivity.
  - destruct (existsSync rt _); [|reflexivity]. cbn [negb].
    f_equal. apply bind_ext. intros text. apply bind_ext. intros jsonData.
    rewrite falsy_as_string.
    destruct (jsonPath req) as [p|]; cbn [option_map].
    + unfold AnyBody.reduce; cbn [AnyBody.split].
      destruct (falsy_string (Some p)); rewrite bind_pure_ok; reflexivity.
    + cbn [falsy_string]. rewrite bind_pure_ok. reflexivity.
  - apply bind_ext. intros _. apply bind_ext. intros _.
    destruct (existsSync rt _); [|reflexivity]. cbn [negb].
    f_equal. apply bind_ext. intros xmlData. apply bind_ext. intros rawJson.
    destruct (jsonPath req) as [p|]; cbn [option_map];
      unfold AnyBody.reduce; cbn [AnyBody.split];
      rewrite bind_pure_ok; reflexivity.
Qed.

Lemma bind_throw (A B : Type) (msg : string) (k : A -> io B) :
  bind (pure (Throw msg)) k = pure (Throw msg).
Proof. reflexivity. Qed.

Lemma to_csv_file_shown rt p p' d out :
  truthy d = true ->
  to_csv_file rt p d out = to_csv_file rt p' d out.
Proof. intros Ht. unfold to_csv_file. now rewrite Ht. Qed.

(** With a [jsonPath] that is falsy and not a string [jsonToCsv] runs as
    with none, and cites the path as the template renders it. *)
Lemma jsonToCsv_falsy_path e rt fname v :
  fname <> "" ->
  truthy v = false ->
  AnyBody.jsonToCsv e rt
    {| AnyBody.filename := Some (VStr fname);
       AnyBody.jsonPath := Some v |}
  = (fst (jsonToCsv rt {| filename := Some fname; jsonPath := None |}),
     reword (AnyBody.render e (Some v))
       (snd (jsonToCsv rt {| filename := Some fname; jsonPath := None |}))).
Proof.
  intros Hne Hv. apply String.eqb_neq in Hne.
  unfold AnyBody.jsonToCsv, jsonToCsv.
  cbn [AnyBody.filename AnyBody.jsonPath filename jsonPath AnyBody.falsy
       falsy_string truthy render AnyBody.path_argument].
  rewrite Hne, Hv. cbn [negb]. rewrite bind_pure_ok.
  destruct (existsSync rt _); [|reflexivity]. cbn [negb].
  unfold read, call.
  destruct (readFileSync rt _) as [text|msg]; [|reflexivity].
  cbn [bind pure call].
  destruct (JSON_parse rt text) as [doc|msg]; [|reflexivity].
  cbn [bind pure call].
  destruct (truthy doc) eqn:Hd.
  - rewrite (@to_csv_file_shown rt (Some (AnyBody.render e (Some v))) None
               doc _ Hd).
    destruct (to_csv_file_cases rt None doc
                (join rt [dirname rt; "../../templates/csv";
                          (basename rt fname (extname rt fname) ++ ".csv")%string]))
      as [[Ht _]|[[_ [_ ->]]|[items [_ Hcases]]]].
    + rewrite Hd in Ht. discriminate Ht.
    + reflexivity.
    + destruct Hcases as [[msg [_ ->]]|[rows [_ Hcases]]]; [reflexivity|].
      destruct Hcases as [[msg [_ ->]]|[csv [_ Hcases]]]; [reflexivity|].
      destruct Hcases as [[_ ->]|[msg [_ ->]]]; reflexivity.
  - unfold to_csv_file. rewrite Hd. reflexivity.
Qed.

Ltac same_runtime :=
  unfold failing_parsers;
  cbn [dirname join basename extname existsSync mkdirSync readFileSync
       writeFileSync parseStringPromise JSON_parse JSON_stringify json2csv
       inherited].

(** With a [jsonPath] that cannot be split a CSV handler runs as on a
    runtime whose parser throws the error of [split]: the document is
    read and parsed, and nothing comes after. *)
Lemma unsplit_run e rt h fname v error :
  makes_csv h = true ->
  fname <> "" ->
  (h = JsonToCsv -> truthy v = true) ->
  AnyBody.split e (Some v) = Throw error ->
  AnyBody.run e rt h
    {| AnyBody.filename := Some (VStr fname);
       AnyBody.jsonPath := Some v |}
  = run h (failing_parsers error rt)
      {| filename := Some fname; jsonPath := None |}.
Proof.
  intros Hcsv Hne Hv Hsplit. apply String.eqb_neq in Hne.
  destruct h; try discriminate Hcsv; cbn [AnyBody.run run].
  - specialize (Hv eq_refl).
    unfold AnyBody.jsonToCsv, jsonToCsv, AnyBody.reduce.
    cbn [AnyBody.filename AnyBody.jsonPath filename jsonPath AnyBody.falsy
         falsy_string truthy render AnyBody.path_argument].
    rewrite Hne, Hv, Hsplit. cbn [negb]. rewrite bind_pure_ok.
    unfold read, call. same_runtime.
    destruct (existsSync rt _); [|reflexivity]. cbn [negb].
    destruct (readFileSync rt _) as [text|msg]; [|reflexivity].
    cbn [bind pure call].
    destruct (JSON_parse rt text) as [doc|msg]; reflexivity.
  - unfold AnyBody.convert, convert, AnyBody.reduce.
    cbn [AnyBody.filename AnyBody.jsonPath filename jsonPath AnyBody.falsy
         falsy_string truthy render AnyBody.path_argument].
    rewrite Hne, Hsplit. cbn [negb]. rewrite bind_pure_ok.
    unfold read, call, ensureDirectory. same_runtime.
    apply bind_ext. intros _. apply bind_ext. intros _.
    destruct (existsSync rt _); [|reflexivity]. cbn [negb].
    destruct (readFileSync rt _) as [text|msg]; [|reflexivity].
    cbn [bind pure call].
    destruct (parseStringPromise rt text) as [doc|msg]; reflexivity.
Qed.

Lemma xmlToJson_any_path e rt req fname :
  AnyBody.filename req = Some (VStr fname) ->
  AnyBody.xmlToJson e rt req
  = xmlToJson rt {| filename := Some fname; jsonPath := None |}.
Proof.
  intros Hf.
  pose proof (as_body_run e rt XmlToJson
                {| filename := Some fname; jsonPath := None |}) as H.
  cbn [AnyBody.run run] in H. rewrite <- H.
  unfold AnyBody.xmlToJson, as_body.
  cbn [AnyBody.filename filename option_map]. now rewrite Hf.
Qed.

Lemma split_of_other e v :
  (forall s, v <> VStr s) ->
  exists error, AnyBody.split e (Some v) = Throw error.
Proof.
  intros Hv. destruct v; cbn [AnyBody.split]; eauto.
  now destruct (Hv s).
Qed.

(** The runs of a handler on any body: the filename is falsy; or it is
    not a string; or it is one, and the run is that of a request on
    strings, reworded for a falsy [jsonPath] that is not a string, or
    ended by the error of [split]. *)
Lemma any_run_cases e rt h req :
  (AnyBody.falsy (AnyBody.filename req) = true
   /\ AnyBody.run e rt h req
      = ([], Ok (badRequest "Filename is required.")))
  \/ (exists v,
         AnyBody.filename req = Some v /\ truthy v = true
         /\ (forall s, v <> VStr s)
         /\ AnyBody.run e rt h req
            = ([], Throw (invalid_path e (Some v))))
  \/ (exists fname,
         AnyBody.filename req = Some (VStr fname) /\ fname <> ""
         /\ ((exists p,
                 (h = XmlToJson
                  \/ AnyBody.jsonPath req = option_map VStr p)
                 /\ AnyBody.run e rt h req
                    = run h rt {| filename := Some fname; jsonPath := p |})
             \/ (exists v,
                    h = JsonToCsv
                    /\ AnyBody.jsonPath req = Some v
                    /\ truthy v = false /\ (forall s, v <> VStr s)
                    /\ AnyBody.run e rt h req
                       = (fst (run h rt {| filename := Some fname;
                                           jsonPath := None |}),
                          reword (AnyBody.render e (Some v))
                            (snd (run h rt {| filename := Some fname;
                                              jsonPath := None |}))))
             \/ (exists v error,
                    makes_csv h = true
                    /\ AnyBody.jsonPath req = Some v
                    /\ (forall s, v <> VStr s)
                    /\ (forall doc,
                           AnyBody.to_convert e rt h (Some v) doc
                           = Throw error)
                    /\ AnyBody.run e rt h req
                       = run h (failing_parsers error rt)
                           {| filename := Some fname;
                              jsonPath := None |}))).
Proof.
  destruct req as [f p]. cbn [AnyBody.filename AnyBody.jsonPath].
  destruct f as [v|].
  2:{ left. split; [reflexivity|]. now destruct h. }
  destruct (truthy v) eqn:Hv.
  2:{ left. cbn [AnyBody.falsy]. rewrite Hv. split; [reflexivity|].
      destruct h; cbn [AnyBody.run];
        [unfold AnyBody.xmlToJson|unfold AnyBody.jsonToCsv
        |unfold AnyBody.convert];
        cbn [AnyBody.filename AnyBody.falsy]; now rewrite Hv. }
  assert (Hstr : (exists fname, v = VStr fname) \/ forall s, v <> VStr s).
  { destruct v; try (right; discriminate). left. eauto. }
  destruct Hstr as [[fname ->]|Hother].
  2:{ right; left. exists v. repeat split; auto.
      destruct h; cbn [AnyBody.run];
        [unfold AnyBody.xmlToJson|unfold AnyBody.jsonToCsv
        |unfold AnyBody.convert];
        cbn [AnyBody.filename AnyBody.falsy]; rewrite Hv; cbn [negb];
        destruct v; try reflexivity; now destruct (Hother s). }
  right; right. exists fname.
  assert (Hne : fname <> "").
  { intros ->. discriminate Hv. }
  split; [reflexivity|]. split; [exact Hne|].
  destruct h.
  - left. exists None. split; [now left|].
    now apply xmlToJson_any_path.
  - destruct p as [w|].
    2:{ left. exists None. split; [now right|].
        apply (as_body_run e rt JsonToCsv
                 {| filename := Some fname; jsonPath := None |}). }
    assert (Hw : (exists s, w = VStr s) \/ forall s, w <> VStr s).
    { destruct w; try (right; discriminate). left. eauto. }
    destruct Hw as [[s ->]|Hw].
    { left. exists (Some s). split; [now right|].
      apply (as_body_run e rt JsonToCsv
               {| filename := Some fname; jsonPath := Some s |}). }
    destruct (truthy w) eqn:Ht.
    + right; right. destruct (split_of_other e Hw) as [error Hsplit].
      exists w, error. split; [reflexivity|]. split; [reflexivity|].
      split; [exact Hw|]. split.
      { intros doc. cbn [AnyBody.to_convert AnyBody.falsy].
        rewrite Ht. cbn [negb]. unfold AnyBody.reduce. now rewrite Hsplit. }
      now apply unsplit_run.
    + right; left. exists w. repeat split; auto.
      now apply jsonToCsv_falsy_path.
  - destruct p as [w|].
    2:{ left. exists None. split; [now right|].
        apply (as_body_run e rt XmlToCsv
                 {| filename := Some fname; jsonPath := None |}). }
    assert (Hw : (exists s, w = VStr s) \/ forall s, w <> VStr s).
    { destruct w; try (right; discriminate). left. eauto. }
    destruct Hw as [[s ->]|Hw].
    { left. exists (Some s). split; [now right|].
      apply (as_body_run e rt XmlToCsv
               {| filename := Some fname; jsonPath := Some s |}). }
    right; right. destruct (split_of_other e Hw) as [error Hsplit].
    exists w, error. split; [reflexivity|]. split; [reflexivity|].
    split; [exact Hw|]. split.
    { intros doc. cbn [AnyBody.to_convert].
      unfold AnyBody.reduce. now rewrite Hsplit. }
    apply unsplit_run; auto. discriminate.
Qed.

Lemma failing_dirs error rt h :
  dirs_of h (failing_parsers error rt) = dirs_of h rt.
Proof. now destruct h. Qed.

Lemma failing_input error rt h fname :
  input_of h (failing_parsers error rt) fname = input_of h rt fname.
Proof. now destruct h. Qed.


Lemma failing_ensure_dirs error rt dirs :
  ensure_dirs (failing_parsers error rt) dirs = ensure_dirs rt dirs.
Proof.
  induction dirs as [|dir dirs IH]; [reflexivity|].
  cbn [ensure_dirs]. now rewrite IH.
Qed.


Lemma reword_throw shown r msg :
  reword shown r = Throw msg -> r = Throw msg.
Proof.
  destruct r as [[b|error|error|error d]|msg']; simpl; try congruence.
  destruct (error =? no_such_path None); discriminate.
Qed.


Lemma reword_other shown r :
  (forall error, r <> Ok (badRequest error)) -> reword shown r = r.
Proof.
  destruct r as [[b|error|error|error d]|msg']; simpl; try reflexivity.
  intros H. now destruct (H error).
Qed.


Lemma ensure_dirs_present rt dirs :
  Forall (fun dir => existsSync rt dir = true) dirs ->
  ensure_dirs rt dirs = ([], Ok tt).
Proof.
  induction 1 as [|dir dirs Hdir _ IH]; [reflexivity|].
  cbn [ensure_dirs]. unfold ensureDirectory. rewrite Hdir, IH. reflexivity.
Qed.

(** ** What the handlers answer to any body *)

(** X1. A request whose filename is missing or falsy, the empty string,
    [0], [false] or [null], is answered 400, ["Filename is required."],
    by every handler and whatever the runtime holds: the run has made no
    directory and has read, written and logged nothing. *)
Theorem missing_filename_rejected (e : engine) (rt : runtime) (h : handler)
  (req : AnyBody.request) :
  AnyBody.falsy (AnyBody.filename req) = true ->
  AnyBody.run e rt h req = ([], Ok (badRequest "Filename is required.")).
Proof.
  intros Hf. destruct h; cbn [AnyBody.run];
    [unfold AnyBody.xmlToJson|unfold AnyBody.jsonToCsv
    |unfold AnyBody.convert];
    now rewrite Hf.
Qed.

Lemma missing_filename_rejected_witness :
  AnyBody.run sample_engine (sample_rt doc_clearing true) XmlToCsv
    {| AnyBody.filename := Some (VNum (num 0));
       AnyBody.jsonPath := Some (VStr "clearing.operation") |}
  = ([], Ok (badRequest "Filename is required."))
  /\ AnyBody.run sample_engine (sample_rt doc_clearing true) XmlToJson
       {| AnyBody.filename := Some (VStr ""); AnyBody.jsonPath := None |}
     = ([], Ok (badRequest "Filename is required.")).
Proof.
  split; apply missing_filename_rejected; reflexivity.
Defined.

(** X2. When the filename is a string, every directory the handler
    makes sure of exists, and [existsSync] does not find the input
    file, the handler answers 404 with its own message, whatever the
    [jsonPath] is; the run has made no directory and has read, written
    and logged nothing. *)
Theorem missing_file_not_found (e : engine) (rt : runtime) (h : handler)
  (req : AnyBody.request) (fname : string) :
  AnyBody.filename req = Some (VStr fname) -> fname <> "" ->
  Forall (fun dir => existsSync rt dir = true) (dirs_of h rt) ->
  existsSync rt (input_of h rt fname) = false ->
  AnyBody.run e rt h req = ([], Ok (notFound (missing_of h))).
Proof.
  intros Hf Hne Hdirs He.
  apply ensure_dirs_present in Hdirs.
  destruct (any_run_cases e rt h req)
    as [[Hfalsy _]|[[v [Hv [_ [Hother _]]]]|[fname' [Hf' [_ Hcases]]]]].
  - rewrite Hf in Hfalsy. cbn in Hfalsy.
    apply String.eqb_neq in Hne. rewrite Hne in Hfalsy. discriminate.
  - rewrite Hf in Hv. injection Hv as <-. now destruct (Hother fname).
  - rewrite Hf in Hf'. injection Hf' as <-.
    destruct Hcases as [[p [_ ->]]|[[v [-> [_ [_ [_ ->]]]]]
                                   |[v [error [_ [_ [_ [_ ->]]]]]]]].
    + now apply typed_not_found with (fname := fname).
    + rewrite (@typed_not_found JsonToCsv rt
                 {| filename := Some fname; jsonPath := None |} fname []
                 eq_refl Hne Hdirs He).
      reflexivity.
    + apply typed_not_found with (fname := fname);
        [reflexivity|exact Hne| |].
      * now rewrite failing_dirs, failing_ensure_dirs.
      * now rewrite failing_input.
Qed.

Lemma missing_file_not_found_witness :
  AnyBody.run sample_engine
    (rt_with (fun path => negb (has_suffix ".xml" path)) (Ok tt) (Ok "")
       (Ok VNull) (Ok "") (Ok tt))
    XmlToCsv
    {| AnyBody.filename := Some (VStr "batch.xml");
       AnyBody.jsonPath := Some VNull |}
  = ([], Ok (notFound "File not found in XML directory.")).
Proof.
  refine (@missing_file_not_found sample_engine
            (rt_with (fun path => negb (has_suffix ".xml" path)) (Ok tt)
               (Ok "") (Ok VNull) (Ok "") (Ok tt))
            XmlToCsv
            {| AnyBody.filename := Some (VStr "batch.xml");
               AnyBody.jsonPath := Some VNull |}
            "batch.xml" eq_refl _ _ eq_refl).
  - discriminate.
  - repeat constructor.
Defined.

Ltac split_run Hrun :=
  match type of Hrun with
  | (fst ?m, reword ?s (snd ?m)) = (?t, ?r) =>
      let t' := fresh "t'" in
      let r' := fresh "r'" in
      let Hm := fresh "Hm" in
      destruct m as [t' r'] eqn:Hm; cbn [fst snd] in Hrun;
      injection Hrun as <- Hrun
  end.

(** X9. A handler throws, instead of answering, in two cases only, both
    before its [try]. Either the filename is truthy and not a string:
    [path.join] throws on it, before anything is done. Or the filename
    is a string and [mkdirSync] threw on a directory of the handler that
    was missing: the exception is that of [mkdirSync], and the run has
    done nothing but make directories. So [jsonToCsv], which makes no
    directory, throws on such a filename only. *)
Theorem throws_before_try (e : engine) (rt : runtime) (h : handler)
  (req : AnyBody.request) (t : list event) (msg : string) :
  AnyBody.run e rt h req = (t, Throw msg) ->
  (exists v,
      AnyBody.filename req = Some v /\ truthy v = true
      /\ (forall s, v <> VStr s)
      /\ t = [] /\ msg = invalid_path e (Some v))
  \/ ((exists fname, AnyBody.filename req = Some (VStr fname))
      /\ h <> JsonToCsv
      /\ (exists dir, In dir (dirs_of h rt) /\ existsSync rt dir = false
                      /\ mkdirSync rt dir = Throw msg
                      /\ In (EvMkdir dir) t)
      /\ (forall ev, In ev t -> exists dir, ev = EvMkdir dir)).
Proof.
  intros Hrun.
  destruct (any_run_cases e rt h req)
    as [[_ Hr]|[[v [Hv [Ht [Hother Hr]]]]|[fname [Hf [_ Hcases]]]]];
    try (rewrite Hr in Hrun).
  - discriminate Hrun.
  - injection Hrun as <- <-. left. exists v. auto.
  - right. split; [eauto|].
    destruct Hcases as [[p [_ Hr]]|[[v [-> [_ [_ [_ Hr]]]]]
                                   |[v [error [_ [_ [_ [_ Hr]]]]]]]];
      rewrite Hr in Hrun.
    + apply run_outcome, outcome_throw_cause in Hrun.
      destruct Hrun as [Hh [_ Hrest]]. auto.
    + split_run Hrun. apply reword_throw in Hrun. subst r'.
      apply run_outcome, outcome_throw_cause in Hm.
      destruct Hm as [Hh [_ Hrest]]. auto.
    + apply run_outcome, outcome_throw_cause in Hrun.
      rewrite failing_dirs in Hrun.
      destruct Hrun as [Hh [_ Hrest]]. auto.
Qed.

Lemma throws_before_try_witness :
  (exists v,
      Some (VArr [VStr "batch.json"]) = Some v /\ truthy v = true
      /\ (forall s, v <> VStr s)
      /\ @nil event = []
      /\ "ERR_INVALID_ARG_TYPE" = invalid_path sample_engine (Some v))
  \/ ((exists fname, Some (VArr [VStr "batch.json"]) = Some (VStr fname))
      /\ JsonToCsv <> JsonToCsv
      /\ (exists dir,
             In dir (dirs_of JsonToCsv (sample_rt doc_table true))
             /\ existsSync (sample_rt doc_table true) dir = false
             /\ mkdirSync (sample_rt doc_table true) dir
                = Throw "ERR_INVALID_ARG_TYPE"
             /\ In (EvMkdir dir) [])
      /\ (forall ev, In ev [] -> exists dir, ev = EvMkdir dir)).
Proof.
  exact (@throws_before_try sample_engine (sample_rt doc_table true)
           JsonToCsv
           {| AnyBody.filename := Some (VArr [VStr "batch.json"]);
              AnyBody.jsonPath := None |}
           [] "ERR_INVALID_ARG_TYPE" eq_refl).
Defined.



(** X12. A handler reads one file at most: its input file, named by a
    filename that is a string, and only after [existsSync] found it. A
    run that read nothing ended in one of four ways: 400 for the
    filename, 404 for the file, the exception of [path.join] on a
    filename that is not a string, or the exception of [mkdirSync] on a
    directory of the handler that was missing. *)
Theorem reads_input_only (e : engine) (rt : runtime) (h : handler)
  (req : AnyBody.request) (t : list event) (r : result response) :
  AnyBody.run e rt h req = (t, r) ->
  (reads t = []
   \/ exists fname,
        AnyBody.filename req = Some (VStr fname)
        /\ reads t = [input_of h rt fname]
        /\ existsSync rt (input_of h rt fname) = true)
  /\ (reads t = [] ->
      r = Ok (badRequest "Filename is required.")
      \/ r = Ok (notFound (missing_of h))
      \/ (exists v,
             AnyBody.filename req = Some v /\ truthy v = true
             /\ (forall s, v <> VStr s)
             /\ r = Throw (invalid_path e (Some v)))
      \/ (exists dir msg,
             In dir (dirs_of h rt) /\ existsSync rt dir = false
             /\ mkdirSync rt dir = Throw msg /\ r = Throw msg)).
Proof.
  intros Hrun.
  assert (Hstrings : forall fname t',
             AnyBody.filename req = Some (VStr fname) ->
             (reads t' = []
              \/ exists fname',
                   Some fname = Some fname'
                   /\ reads t' = [input_of h rt fname']
                   /\ existsSync rt (input_of h rt fname') = true) ->
             reads t' = []
             \/ exists fname,
                  AnyBody.filename req = Some (VStr fname)
                  /\ reads t' = [input_of h rt fname]
                  /\ existsSync rt (input_of h rt fname) = true).
  { intros fname t' Hf [Hnone|[fname' [[= <-] Hread]]]; [now left|].
    right. exists fname. auto. }
  destruct (any_run_cases e rt h req)
    as [[_ Hr]|[[v [Hv [Ht [Hother Hr]]]]|[fname [Hf [_ Hcases]]]]];
    try (rewrite Hr in Hrun; injection Hrun as <- <-).
  - split; [now left|auto].
  - split; [now left|]. intros _. do 2 right. left. exists v. auto.
  - destruct Hcases as [[p [_ Hr]]|[[v [-> [_ [_ [_ Hr]]]]]
                                   |[v [error [_ [_ [_ [_ Hr]]]]]]]];
      rewrite Hr in Hrun.
    + apply run_outcome, outcome_reads in Hrun.
      destruct Hrun as [Hread Hnone]. split.
      * now apply (Hstrings fname t Hf).
      * intros Ht. destruct (Hnone Ht) as [->|[->|Hmk]]; auto.
    + split_run Hrun. apply run_outcome, outcome_reads in Hm.
      destruct Hm as [Hread Hnone]. split.
      * now apply (Hstrings fname t' Hf).
      * intros Ht. subst r.
        destruct (Hnone Ht) as [->|[->|[dir [msg [? [? [? ->]]]]]]].
        -- now left.
        -- right; now left.
        -- do 3 right. exists dir, msg. auto.
    + apply run_outcome, outcome_reads in Hrun.
      rewrite failing_dirs in Hrun.
      destruct Hrun as [Hread Hnone]. split.
      * destruct Hread as [Hnil|[fname' [[= <-] [Hreads Hex]]]];
          [now left|].
        rewrite failing_input in Hreads, Hex.
        right. exists fname. auto.
      * intros Ht. destruct (Hnone Ht) as [->|[->|Hmk]]; auto.
Qed.

Lemma reads_input_only_witness :
  (reads [EvRead "/srv/api/controllers/../../templates/json/data.json";
          EvLog "Error during JSON to CSV conversion:"
                "TypeError: jsonPath.split is not a function"]
   = []
   \/ exists fname,
        Some (VStr "data.json") = Some (VStr fname)
        /\ reads [EvRead "/srv/api/controllers/../../templates/json/data.json";
                  EvLog "Error during JSON to CSV conversion:"
                        "TypeError: jsonPath.split is not a function"]
           = [input_of JsonToCsv (sample_rt doc_table true) fname]
        /\ existsSync (sample_rt doc_table true)
             (input_of JsonToCsv (sample_rt doc_table true) fname) = true).
Proof.
  exact (proj1 (@reads_input_only sample_engine (sample_rt doc_table true)
                  JsonToCsv
                  {| AnyBody.filename := Some (VStr "data.json");
                     AnyBody.jsonPath := Some (VNum one) |}
                  _ _ eq_refl)).
Defined.
